(** * Announcements router of the High School Management System API

    A shallow embedding of [src/backend/routers/announcements.py] and the
    properties of its five endpoints.

    The router talks to two MongoDB collections and to three library
    functions.  They are embedded as follows.

    - a BSON document is a finite map from field names to values, next to
      its [_id];
    - a collection is the list of its documents in natural (insertion)
      order; [find_one], [update_one] and [delete_one] act on the first
      document that matches the [_id] filter;
    - [datetime.now().strftime("%Y-%m-%d")] and the identifier drawn by
      [insert_one] are inputs of the endpoint that uses them;
    - an endpoint is a function from the database to an outcome and the
      database it leaves behind. *)

From Stdlib Require Import String Ascii NArith List Sorted Permutation Lia.
From stdpp Require Import gmap strings list.

Local Open Scope string_scope.
Local Open Scope list_scope.

(** ** Python values and exceptions *)

Module Py.

(** A value that is either a [str] or [None]. *)
Definition optstr := option string.

(** Truth value of an [Optional[str]]: [None] and the empty string are
    false. *)
Definition truthy (v : optstr) : bool :=
  match v with
  | None => false
  | Some s => negb (String.eqb s "")
  end.

(** [a < b] and [a <= b] on [str]: lexicographic on the characters. *)
Definition str_lt (a b : string) : bool := String.ltb a b.
Definition str_le (a b : string) : bool := String.leb a b.
(** [a >= b] is evaluated as [b <= a]. *)
Definition str_ge (a b : string) : bool := String.leb b a.

Inductive exn :=
| HTTPException (status_code : nat) (detail : string)
| KeyError (key : string)
| TypeError
| DuplicateKeyError.

Inductive result (A : Type) :=
| Ok (a : A)
| Err (e : exn).
Arguments Ok {A} a.
Arguments Err {A} e.

Definition bind {A B} (m : result A) (k : A -> result B) : result B :=
  match m with
  | Ok a => k a
  | Err e => Err e
  end.

End Py.
Import Py.

#[global] Instance result_bind : MBind result := fun A B k m => Py.bind m k.
#[global] Instance result_ret : MRet result := fun A a => Ok a.

(** ** [datetime.strptime(s, "%Y-%m-%d")]

    The format is compiled to the regular expression
    [(?P<Y>\d\d\d\d)-(?P<m>1[0-2]|0[1-9]|[1-9])-(?P<d>3[0-1]|[1-2]\d|0[1-9]|[1-9]| [1-9])],
    matched at the start of the string; text left after the match and
    fields that are no calendar date raise [ValueError].  The ranges
    [[0-9]] take the ASCII digits; [\d] takes a decimal digit of any
    script, and [int] reads it.  Strings are sequences of bytes here, the
    UTF-8 encoding of the text. *)

Module Strptime.

Local Open Scope N_scope.

Definition digit (c : ascii) : option N :=
  let n := N_of_ascii c in
  if (48 <=? n) && (n <=? 57) then Some (n - 48) else None.

Definition digit_in (lo hi : N) (c : ascii) : option N :=
  match digit c with
  | Some n => if (lo <=? n) && (n <=? hi) then Some n else None
  | None => None
  end.

(** A continuation byte of UTF-8 and its six bits. *)
Definition continuation (c : ascii) : option N :=
  let n := N_of_ascii c in
  if (128 <=? n) && (n <=? 191) then Some (n - 128) else None.

(** The character at the head of the text, as its code point, and the
    text after it. *)
Definition code_point (s : list ascii) : option (N * list ascii) :=
  match s with
  | [] => None
  | b0 :: s1 =>
      let n := N_of_ascii b0 in
      if n <? 128 then Some (n, s1)
      else if (194 <=? n) && (n <=? 223) then
        match s1 with
        | b1 :: s2 =>
            match continuation b1 with
            | Some x1 => Some ((n - 192) * 64 + x1, s2)
            | None => None
            end
        | _ => None
        end
      else if (224 <=? n) && (n <=? 239) then
        match s1 with
        | b1 :: b2 :: s3 =>
            match continuation b1, continuation b2 with
            | Some x1, Some x2 =>
                Some ((n - 224) * 4096 + x1 * 64 + x2, s3)
            | _, _ => None
            end
        | _ => None
        end
      else if (240 <=? n) && (n <=? 244) then
        match s1 with
        | b1 :: b2 :: b3 :: s4 =>
            match continuation b1, continuation b2, continuation b3 with
            | Some x1, Some x2, Some x3 =>
                Some ((n - 240) * 262144 + x1 * 4096 + x2 * 64 + x3, s4)
            | _, _, _ => None
            end
        | _ => None
        end
      else None
  end.

(** The decimal digits of Unicode come in runs of ten, zero to nine:
    the code points of the zeros (Unicode 14.0, as in Python 3.11). *)
Definition decimal_zeros : list N :=
  [48; 1632; 1776; 1984; 2406; 2534; 2662; 2790; 2918; 3046; 3174; 3302;
   3430; 3558; 3664; 3792; 3872; 4160; 4240; 6112; 6160; 6470; 6608; 6784;
   6800; 6992; 7088; 7232; 7248; 42528; 43216; 43264; 43472; 43504; 43600;
   44016; 65296; 66720; 68912; 69734; 69872; 69942; 70096; 70384; 70736;
   70864; 71248; 71360; 71472; 71904; 72016; 72784; 73040; 73120; 92768;
   92864; 93008; 120782; 120792; 120802; 120812; 120822; 123200; 123632;
   125264; 130032].

(** [\d]: a decimal digit at the head of the text, its value and the
    text after it. *)
Definition decimal (s : list ascii) : option (N * list ascii) :=
  match code_point s with
  | Some (cp, rest) =>
      match List.find (fun z => (z <=? cp) && (cp <=? z + 9)) decimal_zeros
      with
      | Some z => Some (cp - z, rest)
      | None => None
      end
  | None => None
  end.

(** Every way a group can match a prefix of [s], in the order the
    alternatives are tried: the value read and the text left. *)
Definition alternatives := list (N * list ascii).

Definition two (f : ascii -> option N) (g : ascii -> option N)
    (s : list ascii) : alternatives :=
  match s with
  | a :: b :: rest =>
      match f a, g b with
      | Some x, Some y => [((10 * x + y), rest)]
      | _, _ => []
      end
  | _ => []
  end.

Definition one (f : ascii -> option N) (s : list ascii) : alternatives :=
  match s with
  | a :: rest =>
      match f a with
      | Some x => [(x, rest)]
      | None => []
      end
  | _ => []
  end.

(** A character in a range, then [\d]. *)
Definition then_decimal (f : ascii -> option N) (s : list ascii)
    : alternatives :=
  match s with
  | a :: rest =>
      match f a, decimal rest with
      | Some x, Some (y, rest') => [(10 * x + y, rest')]
      | _, _ => []
      end
  | _ => []
  end.

Definition blank (c : ascii) : option N :=
  if Ascii.eqb c " "%char then Some 0 else None.

Definition group_Y (s : list ascii) : alternatives :=
  match decimal s with
  | Some (x, s1) =>
      match decimal s1 with
      | Some (y, s2) =>
          match decimal s2 with
          | Some (z, s3) =>
              match decimal s3 with
              | Some (w, rest) =>
                  [(1000 * x + 100 * y + 10 * z + w, rest)]
              | None => []
              end
          | None => []
          end
      | None => []
      end
  | None => []
  end.

Definition group_m (s : list ascii) : alternatives :=
  two (digit_in 1 1) (digit_in 0 2) s
  ++ two (digit_in 0 0) (digit_in 1 9) s
  ++ one (digit_in 1 9) s.

Definition group_d (s : list ascii) : alternatives :=
  two (digit_in 3 3) (digit_in 0 1) s
  ++ then_decimal (digit_in 1 2) s
  ++ two (digit_in 0 0) (digit_in 1 9) s
  ++ one (digit_in 1 9) s
  ++ two blank (digit_in 1 9) s.

Definition dash (s : list ascii) : list (list ascii) :=
  match s with
  | c :: rest => if Ascii.eqb c "-"%char then [rest] else []
  | [] => []
  end.

(** All matches of the whole expression, first match first. *)
Definition matches (s : list ascii) : list (N * N * N * list ascii) :=
  '(y, s1) ← group_Y s;
  s2 ← dash s1;
  '(m, s3) ← group_m s2;
  s4 ← dash s3;
  '(d, s5) ← group_d s4;
  [(y, m, d, s5)].

Definition is_leap (y : N) : bool :=
  (y mod 4 =? 0) && (negb (y mod 100 =? 0) || (y mod 400 =? 0)).

Definition days_in_month (y m : N) : N :=
  match m with
  | 2 => if is_leap y then 29 else 28
  | 4 | 6 | 9 | 11 => 30
  | _ => 31
  end.

(** [datetime.date(y, m, d)] accepts the fields. *)
Definition is_date (y m d : N) : bool :=
  (1 <=? y) && (y <=? 9999)
  && (1 <=? m) && (m <=? 12)
  && (1 <=? d) && (d <=? days_in_month y m).

(** [Some (y, m, d)] when [strptime] returns, [None] when it raises
    [ValueError]. *)
Definition strptime (s : string) : option (N * N * N) :=
  match matches (list_ascii_of_string s) with
  | (y, m, d, rest) :: _ =>
      match rest with
      | [] => if is_date y m d then Some (y, m, d) else None
      | _ :: _ => None
      end
  | [] => None
  end.

Definition parses (s : string) : bool :=
  match strptime s with Some _ => true | None => false end.

End Strptime.

(** ** [bson.ObjectId]

    An identifier is the bytes that [ObjectId] keeps, here as the
    lower-case hexadecimal digits that [str] prints: 24 digits for the
    twelve bytes of an identifier that the store draws.  [ObjectId(s)] on
    a [str] wants [len(s) == 24] and keeps [bytes.fromhex(s)], which
    skips ASCII white space between bytes: a text with white space is
    accepted with fewer than twelve bytes.  A text with a character
    outside ASCII is refused by one test or the other. *)

Module Bson.

Record ObjectId := mkObjectId { hex : string }.

#[global] Instance ObjectId_eq_dec : EqDecision ObjectId.
Proof. solve_decision. Defined.

Definition is_hex (c : ascii) : bool :=
  let n := N_of_ascii c in
  ((48 <=? n) && (n <=? 57) || (97 <=? n) && (n <=? 102)
   || (65 <=? n) && (n <=? 70))%N.

Definition lower (c : ascii) : ascii :=
  let n := N_of_ascii c in
  if ((65 <=? n) && (n <=? 90))%N then ascii_of_N (n + 32) else c.

(** ASCII white space: space, and tab to carriage return. *)
Definition is_space (c : ascii) : bool :=
  let n := N_of_ascii c in
  ((n =? 32) || (9 <=? n) && (n <=? 13))%N.

(** [bytes.fromhex(s)], the bytes in lower-case hexadecimal: white space
    is skipped before each byte, a byte is two hexadecimal digits with
    nothing between them.  [None] stands for [ValueError]. *)
Fixpoint fromhex (s : list ascii) : option string :=
  match s with
  | [] => Some EmptyString
  | c :: rest =>
      if is_space c then fromhex rest
      else
        match rest with
        | d :: rest' =>
            if is_hex c && is_hex d then
              match fromhex rest' with
              | Some bytes => Some (String (lower c) (String (lower d) bytes))
              | None => None
              end
            else None
        | [] => None
        end
  end.

(** [ObjectId(s)]: [None] stands for the exception. *)
Definition parse (s : string) : option ObjectId :=
  if (String.length s =? 24)%nat then
    match fromhex (list_ascii_of_string s) with
    | Some bytes => Some (mkObjectId bytes)
    | None => None
    end
  else None.

(** [str(oid)] *)
Definition str (oid : ObjectId) : string := hex oid.

End Bson.
Import Bson.

(** ** The document store *)

Module Mongo.

(** A stored field is a string or null. *)
Inductive value :=
| VStr (s : string)
| VNull.

#[global] Instance value_eq_dec : EqDecision value.
Proof. solve_decision. Defined.

Record document := mkDocument {
  _id : ObjectId;
  fields : gmap string value
}.

#[global] Instance document_eq_dec : EqDecision document.
Proof. solve_decision. Defined.

Definition collection := list document.

Definition to_py (v : value) : optstr :=
  match v with
  | VStr s => Some s
  | VNull => None
  end.

(** [doc.get(key)] *)
Definition get (doc : document) (key : string) : optstr :=
  match fields doc !! key with
  | Some v => to_py v
  | None => None
  end.

(** [doc[key]] *)
Definition getitem (doc : document) (key : string) : result optstr :=
  match fields doc !! key with
  | Some v => Ok (to_py v)
  | None => Err (KeyError key)
  end.

Definition has_id (oid : ObjectId) (doc : document) : bool :=
  bool_decide (_id doc = oid).

(** [collection.find_one({"_id": oid})] *)
Definition find_one (oid : ObjectId) (c : collection) : option document :=
  List.find (has_id oid) c.

(** [collection.insert_one(doc)], where the driver draws [oid] for the
    new document; the unique index on [_id] refuses a second document
    with the same identifier. *)
Definition insert_one (oid : ObjectId) (doc : gmap string value)
    (c : collection) : result ObjectId * collection :=
  match find_one oid c with
  | Some _ => (Err DuplicateKeyError, c)
  | None => (Ok oid, c ++ [mkDocument oid doc])
  end.

Record UpdateResult := mkUpdateResult {
  matched_count : nat;
  modified_count : nat
}.

(** An update operator document. *)
Inductive operator :=
| op_set (new : gmap string value)
| op_unset (key : string).

Definition apply (op : operator) (f : gmap string value)
    : gmap string value :=
  match op with
  | op_set new => new ∪ f
  | op_unset key => delete key f
  end.

(** [collection.update_one({"_id": oid}, op)] *)
Fixpoint update_one (oid : ObjectId) (op : operator) (c : collection)
    : UpdateResult * collection :=
  match c with
  | [] => (mkUpdateResult 0 0, [])
  | doc :: rest =>
      if has_id oid doc then
        let f := apply op (fields doc) in
        (mkUpdateResult 1 (if bool_decide (f = fields doc) then 0 else 1),
         mkDocument (_id doc) f :: rest)
      else
        let '(r, rest') := update_one oid op rest in
        (r, doc :: rest')
  end.

(** [collection.delete_one({"_id": oid})], with the [deleted_count] of
    its result. *)
Fixpoint delete_one (oid : ObjectId) (c : collection) : nat * collection :=
  match c with
  | [] => (0, [])
  | doc :: rest =>
      if has_id oid doc then (1, rest)
      else
        let '(n, rest') := delete_one oid rest in
        (n, doc :: rest')
  end.

(** Sort order of field values: a missing field and null come before
    every string, strings are compared as binary strings. *)
Definition key_le (a b : option value) : bool :=
  match a, b with
  | Some (VStr x), Some (VStr y) => str_le x y
  | Some (VStr _), _ => false
  | _, _ => true
  end.

(** [cursor.sort(key, -1)]: descending; the server leaves the order of
    documents with equal keys open, here they stay in natural order. *)
Fixpoint insert_desc (key : string) (doc : document) (c : collection)
    : collection :=
  match c with
  | [] => [doc]
  | d :: rest =>
      if key_le (fields d !! key) (fields doc !! key)
      then doc :: d :: rest
      else d :: insert_desc key doc rest
  end.

Definition sort_desc (key : string) (c : collection) : collection :=
  foldr (insert_desc key) [] c.

End Mongo.
Import Mongo.

(** ** The router *)

(** The JSON object that the endpoints return for an announcement. *)
Module Response.
Record t := mk {
  id : string;
  message : optstr;
  start_date : optstr;
  expiration_date : optstr;
  created_by : optstr
}.
End Response.

Module Announcements.

Record database := mkDatabase {
  announcements_collection : collection;
  (** the [_id]s of the teacher documents *)
  teachers_collection : gset string
}.

(** [teachers_collection.find_one({"_id": teacher_username})] *)
Definition find_teacher (teacher_username : string) (db : database)
    : option string :=
  if decide (teacher_username ∈ teachers_collection db)
  then Some teacher_username else None.

Definition with_announcements (db : database) (c : collection) : database :=
  mkDatabase c (teachers_collection db).

Definition authentication_required {A} : result A :=
  Err (HTTPException 401 "Authentication required").
Definition invalid_date_format {A} : result A :=
  Err (HTTPException 400 "Invalid date format. Use YYYY-MM-DD").
Definition invalid_announcement_id {A} : result A :=
  Err (HTTPException 400 "Invalid announcement ID").
Definition announcement_not_found {A} : result A :=
  Err (HTTPException 404 "Announcement not found").
Definition failed_to_update {A} : result A :=
  Err (HTTPException 500 "Failed to update announcement").

(** The object built from a stored announcement by both listings. *)
Definition render (announcement : document) : result Response.t :=
  message ← getitem announcement "message";
  expiration_date ← getitem announcement "expiration_date";
  Ok (Response.mk (str (_id announcement)) message
        (get announcement "start_date") expiration_date
        (get announcement "created_by")).

(** [start_date and current_date < start_date] *)
Definition not_started (current_date : string) (start_date : optstr) : bool :=
  match start_date with
  | Some s => truthy start_date && str_lt current_date s
  | None => false
  end.

(** The loop of [get_announcements] over the cursor, [announcements]
    being the list built so far. *)
Fixpoint get_announcements_loop (current_date : string)
    (cursor : list document) (announcements : list Response.t)
    : result (list Response.t) :=
  match cursor with
  | [] => Ok announcements
  | announcement :: cursor' =>
      let start_date := get announcement "start_date" in
      let expiration_date := get announcement "expiration_date" in
      if not_started current_date start_date then
        get_announcements_loop current_date cursor' announcements
      else
        match expiration_date with
        | None => Err TypeError
        | Some e =>
            if str_le current_date e then
              r ← render announcement;
              get_announcements_loop current_date cursor'
                (announcements ++ [r])
            else get_announcements_loop current_date cursor' announcements
        end
  end.

(** GET /announcements; [current_date] is
    [datetime.now().strftime("%Y-%m-%d")]. *)
Definition get_announcements (current_date : string) (db : database)
    : result (list Response.t) :=
  get_announcements_loop current_date (announcements_collection db) [].

Fixpoint get_all_announcements_loop (cursor : list document)
    (announcements : list Response.t) : result (list Response.t) :=
  match cursor with
  | [] => Ok announcements
  | announcement :: cursor' =>
      r ← render announcement;
      get_all_announcements_loop cursor' (announcements ++ [r])
  end.

(** GET /announcements/all *)
Definition get_all_announcements (teacher_username : string)
    (db : database) : result (list Response.t) :=
  match find_teacher teacher_username db with
  | None => authentication_required
  | Some _ =>
      get_all_announcements_loop
        (sort_desc "expiration_date" (announcements_collection db)) []
  end.

(** The [try] block around the two [strptime] calls: [false] when
    [ValueError] is raised. *)
Definition dates_parse (expiration_date : string) (start_date : optstr)
    : bool :=
  Strptime.parses expiration_date
  && match start_date with
     | Some s => if truthy start_date then Strptime.parses s else true
     | None => true
     end.

(** [announcement_doc] of [create_announcement]. *)
Definition announcement_doc (message expiration_date teacher_username : string)
    (start_date : optstr) : gmap string value :=
  let doc : gmap string value :=
    {[ "message" := VStr message;
       "expiration_date" := VStr expiration_date;
       "created_by" := VStr teacher_username ]} in
  match start_date with
  | Some s => if truthy start_date then <["start_date" := VStr s]> doc else doc
  | None => doc
  end.

(** POST /announcements; [inserted_id] is the identifier that
    [insert_one] draws. *)
Definition create_announcement
    (message expiration_date teacher_username : string)
    (start_date : optstr) (inserted_id : ObjectId) (db : database)
    : result Response.t * database :=
  match find_teacher teacher_username db with
  | None => (authentication_required, db)
  | Some _ =>
      if negb (dates_parse expiration_date start_date)
      then (invalid_date_format, db)
      else
        let doc :=
          announcement_doc message expiration_date teacher_username
            start_date in
        match insert_one inserted_id doc (announcements_collection db) with
        | (Err e, c) => (Err e, with_announcements db c)
        | (Ok oid, c) =>
            (Ok (Response.mk (str oid) (Some message) start_date
                   (Some expiration_date) (Some teacher_username)),
             with_announcements db c)
        end
  end.

(** [update_doc] of [update_announcement]. *)
Definition update_doc (message expiration_date : string)
    (start_date : optstr) : gmap string value :=
  let doc : gmap string value :=
    {[ "message" := VStr message;
       "expiration_date" := VStr expiration_date ]} in
  match start_date with
  | Some s => if truthy start_date then <["start_date" := VStr s]> doc else doc
  | None => doc
  end.

(** The end of [update_announcement], from the test on the result of
    the second [update_one]. *)
Definition update_outcome (result : UpdateResult)
    (announcement_id message expiration_date : string)
    (start_date : optstr) (announcement : document) : Py.result Response.t :=
  if (modified_count result =? 0)%nat && (matched_count result =? 0)%nat
  then failed_to_update
  else
    Ok (Response.mk announcement_id (Some message) start_date
          (Some expiration_date) (get announcement "created_by")).

(** PUT /announcements/{announcement_id} *)
Definition update_announcement
    (announcement_id message expiration_date teacher_username : string)
    (start_date : optstr) (db : database) : result Response.t * database :=
  match find_teacher teacher_username db with
  | None => (authentication_required, db)
  | Some _ =>
      match parse announcement_id with
      | None => (invalid_announcement_id, db)
      | Some obj_id =>
          match find_one obj_id (announcements_collection db) with
          | None => (announcement_not_found, db)
          | Some announcement =>
              if negb (dates_parse expiration_date start_date)
              then (invalid_date_format, db)
              else
                let c1 :=
                  if truthy start_date then announcements_collection db
                  else
                    snd (update_one obj_id (op_unset "start_date")
                           (announcements_collection db)) in
                let '(result, c2) :=
                  update_one obj_id
                    (op_set (update_doc message expiration_date start_date))
                    c1 in
                (update_outcome result announcement_id message
                   expiration_date start_date announcement,
                 with_announcements db c2)
          end
      end
  end.

(** DELETE /announcements/{announcement_id}; the value is the
    [message] of the object returned. *)
Definition delete_announcement (announcement_id teacher_username : string)
    (db : database) : result string * database :=
  match find_teacher teacher_username db with
  | None => (authentication_required, db)
  | Some _ =>
      match parse announcement_id with
      | None => (invalid_announcement_id, db)
      | Some obj_id =>
          let '(deleted_count, c) :=
            delete_one obj_id (announcements_collection db) in
          if (deleted_count =? 0)%nat
          then (announcement_not_found, with_announcements db c)
          else (Ok "Announcement deleted successfully",
                with_announcements db c)
      end
  end.

End Announcements.
Import Announcements.

(** ** What the specification says, in terms of the store *)

Module Spec.

(** The announcement as a reader of the API sees it. *)
Definition view (a : document) : Response.t :=
  Response.mk (str (_id a)) (get a "message") (get a "start_date")
    (get a "expiration_date") (get a "created_by").

(** "[start_date] is absent OR [today >= start_date], AND
    [today <= expiration_date]", on the fields as [get] reads them: a
    field that is missing or null is absent. *)
Definition active (today : string) (a : document) : bool :=
  match get a "start_date" with
  | None => true
  | Some s => str_ge today s
  end
  && match get a "expiration_date" with
     | Some e => str_le today e
     | None => false
     end.

(** The data model: [message] and [expiration_date] are required
    strings. *)
Definition well_formed (a : document) : bool :=
  match fields a !! "message", fields a !! "expiration_date" with
  | Some (VStr _), Some (VStr _) => true
  | _, _ => false
  end.

(** The store's own invariant: [_id] is a unique key. *)
Definition unique_ids (c : collection) : Prop := NoDup (map _id c).

Definition store_ok (c : collection) : Prop :=
  unique_ids c /\ Forall (fun a => well_formed a = true) c.

(** In a descending sort by [key], [d1] may stand before [d2]. *)
Definition before (key : string) (d1 d2 : document) : Prop :=
  key_le (fields d2 !! key) (fields d1 !! key) = true.

(** [r1] does not expire before [r2]. *)
Definition expires_no_earlier (r1 r2 : Response.t) : Prop :=
  match Response.expiration_date r1, Response.expiration_date r2 with
  | Some e1, Some e2 => str_ge e1 e2 = true
  | _, _ => False
  end.

(** The fields of a record after a successful update of it: the new
    values over the old record, the old [start_date] dropped unless a
    new one is given. *)
Definition updated_fields (message expiration_date : string)
    (start_date : optstr) (old : gmap string value) : gmap string value :=
  update_doc message expiration_date start_date
  ∪ (if truthy start_date then old else delete "start_date" old).

(** An outcome that is HTTP 400. *)
Definition is_invalid_input {A} (r : result A) : bool :=
  match r with
  | Err (HTTPException 400 _) => true
  | _ => false
  end.



End Spec.
Import Spec.

(** ** A small database

    The two announcements of the scenario "today = 2024-06-15" and one
    teacher. *)

Module Sample.

Definition id_a : ObjectId := mkObjectId "65a1b2c3d4e5f60718293a4a".
Definition id_b : ObjectId := mkObjectId "65a1b2c3d4e5f60718293a4b".
Definition id_c : ObjectId := mkObjectId "65a1b2c3d4e5f60718293a4c".

Definition doc_a : document :=
  mkDocument id_a
    {[ "message" := VStr "Science fair";
       "start_date" := VStr "2024-06-01";
       "expiration_date" := VStr "2024-06-30";
       "created_by" := VStr "t1" ]}.

Definition doc_b : document :=
  mkDocument id_b
    {[ "message" := VStr "Enrolment opens";
       "start_date" := VStr "2024-07-01";
       "expiration_date" := VStr "2024-12-31";
       "created_by" := VStr "t1" ]}.

Definition db : database := mkDatabase [doc_a; doc_b] {[ "t1" ]}.

End Sample.

(** ** Further notions about records and dates *)

Module Records.

(** [render] reads [message] and [expiration_date] with [doc[key]]: both
    keys have to be there, whatever their value. *)
Definition has_keys (a : document) : bool :=
  match fields a !! "message", fields a !! "expiration_date" with
  | Some _, Some _ => true
  | _, _ => false
  end.

(** The record as the endpoints write it: [message] a string,
    [expiration_date] a string that [strptime] accepts, [start_date]
    missing or a string that [strptime] accepts. *)
Definition valid_record (a : document) : bool :=
  match fields a !! "message", fields a !! "expiration_date" with
  | Some (VStr _), Some (VStr e) =>
      Strptime.parses e
      && match fields a !! "start_date" with
         | None => true
         | Some (VStr s) => Strptime.parses s
         | Some VNull => false
         end
  | _, _ => false
  end.

(** A date written with all its zeros: [dddd-dd-dd]. *)
Definition padded (s : string) : bool :=
  match list_ascii_of_string s with
  | [y1; y2; y3; y4; h1; m1; m2; h2; d1; d2] =>
      forallb (fun c => match Strptime.digit c with
                        | Some _ => true
                        | None => false
                        end) [y1; y2; y3; y4; m1; m2; d1; d2]
      && Ascii.eqb h1 "-"%char && Ascii.eqb h2 "-"%char
  | _ => false
  end.

(** Calendar order on (year, month, day). *)
Definition date_le (a b : N * N * N) : bool :=
  let '(y1, m1, d1) := a in
  let '(y2, m2, d2) := b in
  ((y1 <? y2) || (y1 =? y2) && ((m1 <? m2) || (m1 =? m2) && (d1 <=? d2)))%N.

End Records.
Import Records.

(** ** String order *)

Section StringOrder.

Lemma str_lt_not_ge (a b : string) : str_lt a b = negb (str_ge a b).
Proof.
  unfold str_lt, str_ge, String.ltb, String.leb.
  rewrite (String.compare_antisym b a).
  destruct (String.compare a b); reflexivity.
Qed.

Lemma str_ge_empty (a : string) : str_ge a "" = true.
Proof. destruct a; reflexivity. Qed.

Lemma str_le_refl (a : string) : str_le a a = true.
Proof. destruct (String.leb_total a a); assumption. Qed.

Lemma str_le_trans (a b c : string) :
  str_le a b = true -> str_le b c = true -> str_le a c = true.
Proof.
  unfold str_le, String.leb. revert b c.
  induction a as [|x a IH]; intros [|y b] [|z c]; simpl; try congruence.
  unfold Ascii.compare.
  destruct (N.compare_spec (N_of_ascii x) (N_of_ascii y)) as [Hxy|Hxy|Hxy];
    destruct (N.compare_spec (N_of_ascii y) (N_of_ascii z)) as [Hyz|Hyz|Hyz];
    try congruence; intros Hab Hbc.
  - rewrite Hxy, Hyz, N.compare_refl. eapply IH; eassumption.
  - rewrite Hxy. apply N.compare_lt_iff in Hyz. now rewrite Hyz.
  - rewrite <- Hyz. apply N.compare_lt_iff in Hxy. now rewrite Hxy.
  - assert (H : (N_of_ascii x < N_of_ascii z)%N) by lia.
    apply N.compare_lt_iff in H. now rewrite H.
Qed.

Lemma str_le_total (a b : string) : str_le a b = true \/ str_le b a = true.
Proof. apply String.leb_total. Qed.

End StringOrder.

(** ** GET /announcements *)

Section ListActive.

Variable current_date : string.

Lemma not_started_spec (start_date : optstr) :
  not_started current_date start_date
  = negb match start_date with
         | None => true
         | Some s => str_ge current_date s
         end.
Proof.
  destruct start_date as [s|]; [|reflexivity]. simpl.
  destruct (String.eqb_spec s "") as [->|_]; simpl.
  - now rewrite str_ge_empty.
  - apply str_lt_not_ge.
Qed.

Lemma render_well_formed (a : document) :
  well_formed a = true -> render a = Ok (view a).
Proof.
  unfold well_formed, render, view, getitem, get.
  destruct (fields a !! "message") as [[m|]|]; try discriminate.
  destruct (fields a !! "expiration_date") as [[e|]|]; try discriminate.
  reflexivity.
Qed.

Lemma get_announcements_loop_spec (c : collection) :
  Forall (fun a => well_formed a = true) c ->
  forall acc,
    get_announcements_loop current_date c acc
    = Ok (acc ++ map view (List.filter (active current_date) c)).
Proof.
  induction 1 as [|a c Ha _ IH]; intros acc; simpl.
  - now rewrite app_nil_r.
  - unfold active at 1. rewrite not_started_spec.
    destruct (match get a "start_date" with
              | Some s => str_ge current_date s
              | None => true
              end); simpl; [|apply IH].
    assert (He : exists e, get a "expiration_date" = Some e).
    { unfold well_formed in Ha. unfold get.
      destruct (fields a !! "message") as [[m|]|]; try discriminate.
      destruct (fields a !! "expiration_date") as [[e|]|]; try discriminate.
      now exists e. }
    destruct He as [e ->].
    destruct (str_le current_date e); [|apply IH].
    rewrite (render_well_formed a Ha). simpl.
    change (get_announcements_loop current_date c (acc ++ [view a])
            = Ok (acc ++ view a :: map view (List.filter (active current_date) c))).
    rewrite IH, <- app_assoc. reflexivity.
Qed.

End ListActive.

(** ** The store operations *)

Section Store.

Implicit Types (c l : collection) (d : document) (oid : ObjectId).

Lemma has_id_true oid d : has_id oid d = true <-> _id d = oid.
Proof. unfold has_id. apply bool_decide_eq_true. Qed.

Lemma has_id_false oid d : has_id oid d = false <-> _id d <> oid.
Proof. unfold has_id. apply bool_decide_eq_false. Qed.

Lemma find_one_None oid c :
  find_one oid c = None <-> Forall (fun d => _id d <> oid) c.
Proof.
  unfold find_one. induction c as [|d c IH]; simpl.
  - split; [constructor | reflexivity].
  - destruct (has_id oid d) eqn:E.
    + apply has_id_true in E. split; [discriminate|].
      intros H. apply Forall_cons_1 in H as [H _]. contradiction.
    + apply has_id_false in E. rewrite IH. split.
      * now constructor.
      * intros H. now apply Forall_cons_1 in H as [_ H].
Qed.

(** A document that [find_one] returns is the first one with that
    identifier. *)
Lemma find_one_Some oid c d :
  find_one oid c = Some d ->
  exists l1 l2,
    c = l1 ++ d :: l2 /\ _id d = oid /\ Forall (fun x => _id x <> oid) l1.
Proof.
  unfold find_one. induction c as [|x c IH]; simpl; [discriminate|].
  destruct (has_id oid x) eqn:E.
  - intros [= ->]. apply has_id_true in E.
    exists [], c. repeat split; [assumption | constructor].
  - intros H. destruct (IH H) as (l1 & l2 & -> & Hid & Hl1).
    apply has_id_false in E.
    exists (x :: l1), l2. repeat split; [assumption | now constructor].
Qed.

Lemma find_one_first oid l1 d l2 :
  _id d = oid -> Forall (fun x => _id x <> oid) l1 ->
  find_one oid (l1 ++ d :: l2) = Some d.
Proof.
  intros Hd. unfold find_one. induction 1 as [|x l1 Hx _ IH]; simpl.
  - apply has_id_true in Hd. now rewrite Hd.
  - apply has_id_false in Hx. now rewrite Hx.
Qed.

Lemma update_one_first oid op l1 d l2 :
  _id d = oid -> Forall (fun x => _id x <> oid) l1 ->
  update_one oid op (l1 ++ d :: l2)
  = (mkUpdateResult 1
       (if bool_decide (apply op (fields d) = fields d) then 0 else 1),
     l1 ++ mkDocument (_id d) (apply op (fields d)) :: l2).
Proof.
  intros Hd. induction 1 as [|x l1 Hx _ IH]; simpl.
  - apply has_id_true in Hd. now rewrite Hd.
  - apply has_id_false in Hx. now rewrite Hx, IH.
Qed.

Lemma update_one_absent oid op c :
  find_one oid c = None -> update_one oid op c = (mkUpdateResult 0 0, c).
Proof.
  rewrite find_one_None. induction 1 as [|x c Hx _ IH]; simpl; [reflexivity|].
  apply has_id_false in Hx. now rewrite Hx, IH.
Qed.

Lemma delete_one_first oid l1 d l2 :
  _id d = oid -> Forall (fun x => _id x <> oid) l1 ->
  delete_one oid (l1 ++ d :: l2) = (1, l1 ++ l2).
Proof.
  intros Hd. induction 1 as [|x l1 Hx _ IH]; simpl.
  - apply has_id_true in Hd. now rewrite Hd.
  - apply has_id_false in Hx. now rewrite Hx, IH.
Qed.

Lemma delete_one_absent oid c :
  find_one oid c = None -> delete_one oid c = (0, c).
Proof.
  rewrite find_one_None. induction 1 as [|x c Hx _ IH]; simpl; [reflexivity|].
  apply has_id_false in Hx. now rewrite Hx, IH.
Qed.


End Store.

(** ** Sorting by a field, descending *)

Section SortDesc.

Variable key : string.

Lemma key_le_total (a b : option value) :
  key_le a b = false -> key_le b a = true.
Proof.
  destruct a as [[x|]|], b as [[y|]|]; simpl; try congruence.
  destruct (str_le_total x y); congruence.
Qed.

Lemma key_le_trans (a b c : option value) :
  key_le a b = true -> key_le b c = true -> key_le a c = true.
Proof.
  destruct a as [[x|]|], b as [[y|]|], c as [[z|]|]; simpl; try congruence.
  apply str_le_trans.
Qed.

#[local] Instance before_trans : Transitive (before key).
Proof. intros d1 d2 d3 H12 H23. exact (key_le_trans _ _ _ H23 H12). Qed.

Lemma insert_desc_Permutation (d : document) (c : collection) :
  Permutation (insert_desc key d c) (d :: c).
Proof.
  induction c as [|x c IH]; simpl; [reflexivity|].
  destruct (key_le (fields x !! key) (fields d !! key)); [reflexivity|].
  rewrite IH. apply perm_swap.
Qed.

Lemma sort_desc_Permutation (c : collection) :
  Permutation (sort_desc key c) c.
Proof.
  induction c as [|x c IH]; simpl; [reflexivity|].
  unfold sort_desc in *. now rewrite insert_desc_Permutation, IH.
Qed.

Lemma insert_desc_HdRel (x d : document) (c : collection) :
  before key x d -> HdRel (before key) x c -> HdRel (before key) x (insert_desc key d c).
Proof.
  intros Hxd Hxc. destruct c as [|y c]; simpl.
  - now constructor.
  - destruct (key_le (fields y !! key) (fields d !! key)).
    + now constructor.
    + constructor. now inversion Hxc.
Qed.

Lemma insert_desc_Sorted (d : document) (c : collection) :
  Sorted (before key) c -> Sorted (before key) (insert_desc key d c).
Proof.
  induction 1 as [|x c Hc IH Hx]; simpl.
  - repeat constructor.
  - destruct (key_le (fields x !! key) (fields d !! key)) eqn:E.
    + repeat constructor; assumption.
    + constructor; [assumption|].
      apply insert_desc_HdRel; [|assumption].
      apply key_le_total, E.
Qed.

Lemma sort_desc_Sorted (c : collection) :
  StronglySorted (before key) (sort_desc key c).
Proof.
  apply Sorted_StronglySorted; [apply before_trans|].
  induction c as [|x c IH]; simpl; [constructor|].
  apply insert_desc_Sorted, IH.
Qed.

End SortDesc.

(** ** GET /announcements/all *)

Section ListAll.

Lemma get_all_announcements_loop_spec (c : collection) :
  Forall (fun a => well_formed a = true) c ->
  forall acc, get_all_announcements_loop c acc = Ok (acc ++ map view c).
Proof.
  induction 1 as [|a c Ha _ IH]; intros acc; simpl.
  - now rewrite app_nil_r.
  - rewrite (render_well_formed a Ha). simpl.
    change (get_all_announcements_loop c (acc ++ [view a])
            = Ok (acc ++ view a :: map view c)).
    now rewrite IH, <- app_assoc.
Qed.

Lemma well_formed_expiration (a : document) :
  well_formed a = true ->
  exists e, fields a !! "expiration_date" = Some (VStr e).
Proof.
  unfold well_formed.
  destruct (fields a !! "message") as [[m|]|]; try discriminate.
  destruct (fields a !! "expiration_date") as [[e|]|]; try discriminate.
  now exists e.
Qed.

Lemma view_expires_no_earlier (a b : document) :
  well_formed a = true -> well_formed b = true ->
  before "expiration_date" a b -> expires_no_earlier (view a) (view b).
Proof.
  intros Ha Hb. unfold before, expires_no_earlier, view, get. simpl.
  destruct (well_formed_expiration a Ha) as [ea ->].
  destruct (well_formed_expiration b Hb) as [eb ->].
  simpl. trivial.
Qed.

Lemma view_StronglySorted (c : collection) :
  Forall (fun a => well_formed a = true) c ->
  StronglySorted (before "expiration_date") c ->
  StronglySorted expires_no_earlier (map view c).
Proof.
  intros Hwf. induction 1 as [|a c Hc IH Ha]; simpl; constructor.
  - apply IH. now apply Forall_cons_1 in Hwf as [_ Hwf].
  - apply Forall_cons_1 in Hwf as [Hwa Hwf].
    rewrite List.Forall_forall in *. intros r Hr.
    apply in_map_iff in Hr as (b & <- & Hb).
    apply view_expires_no_earlier; [assumption | apply Hwf, Hb | apply Ha, Hb].
Qed.

End ListAll.

(** ** The endpoints that write *)

Section Endpoints.

Implicit Types (db : database) (start_date : optstr).

Lemma find_teacher_known teacher_username db :
  teacher_username ∈ teachers_collection db ->
  find_teacher teacher_username db = Some teacher_username.
Proof. intros H. unfold find_teacher. now rewrite decide_True. Qed.

Lemma find_teacher_unknown teacher_username db :
  teacher_username ∉ teachers_collection db ->
  find_teacher teacher_username db = None.
Proof. intros H. unfold find_teacher. now rewrite decide_False. Qed.

Lemma find_teacher_Some teacher_username db t :
  find_teacher teacher_username db = Some t ->
  teacher_username ∈ teachers_collection db.
Proof. unfold find_teacher. case_decide; [trivial | discriminate]. Qed.

Lemma with_announcements_same db :
  with_announcements db (announcements_collection db) = db.
Proof. now destruct db. Qed.

Lemma create_announcement_ok message expiration_date teacher_username
    start_date inserted_id db :
  teacher_username ∈ teachers_collection db ->
  dates_parse expiration_date start_date = true ->
  find_one inserted_id (announcements_collection db) = None ->
  create_announcement message expiration_date teacher_username start_date
    inserted_id db
  = (Ok (Response.mk (str inserted_id) (Some message) start_date
           (Some expiration_date) (Some teacher_username)),
     with_announcements db
       (announcements_collection db
        ++ [mkDocument inserted_id
              (announcement_doc message expiration_date teacher_username
                 start_date)])).
Proof.
  intros Ht Hd Hf. unfold create_announcement, insert_one.
  now rewrite (find_teacher_known _ _ Ht), Hd, Hf.
Qed.

Lemma create_announcement_inv message expiration_date teacher_username
    start_date inserted_id db r :
  fst (create_announcement message expiration_date teacher_username
         start_date inserted_id db) = Ok r ->
  teacher_username ∈ teachers_collection db
  /\ dates_parse expiration_date start_date = true
  /\ find_one inserted_id (announcements_collection db) = None.
Proof.
  unfold create_announcement, insert_one.
  destruct (find_teacher teacher_username db) eqn:Ht; [|discriminate].
  apply find_teacher_Some in Ht.
  destruct (dates_parse expiration_date start_date); [|discriminate].
  destruct (find_one inserted_id (announcements_collection db));
    [discriminate|].
  auto.
Qed.

Lemma update_outcome_matched (result : UpdateResult) announcement_id message
    expiration_date start_date announcement :
  matched_count result = 1 ->
  update_outcome result announcement_id message expiration_date start_date
    announcement
  = Ok (Response.mk announcement_id (Some message) start_date
          (Some expiration_date) (get announcement "created_by")).
Proof.
  intros H. unfold update_outcome. rewrite H. simpl.
  now rewrite andb_false_r.
Qed.

Lemma update_announcement_ok announcement_id message expiration_date
    teacher_username start_date db obj_id announcement :
  teacher_username ∈ teachers_collection db ->
  parse announcement_id = Some obj_id ->
  find_one obj_id (announcements_collection db) = Some announcement ->
  dates_parse expiration_date start_date = true ->
  exists l1 l2,
    announcements_collection db = l1 ++ announcement :: l2
    /\ Forall (fun x => _id x <> obj_id) l1
    /\ update_announcement announcement_id message expiration_date
         teacher_username start_date db
       = (Ok (Response.mk announcement_id (Some message) start_date
                (Some expiration_date) (get announcement "created_by")),
          with_announcements db
            (l1 ++ mkDocument obj_id
                     (updated_fields message expiration_date start_date
                        (fields announcement)) :: l2)).
Proof.
  intros Ht Hp Hf Hd.
  destruct (find_one_Some _ _ _ Hf) as (l1 & l2 & Hc & Hid & Hl1).
  exists l1, l2. repeat split; try assumption.
  unfold update_announcement, updated_fields.
  rewrite (find_teacher_known _ _ Ht), Hp, Hf, Hd. simpl.
  rewrite Hc. destruct (truthy start_date).
  - rewrite (update_one_first _ _ _ _ _ Hid Hl1). simpl.
    now rewrite Hid, update_outcome_matched.
  - rewrite (update_one_first _ _ _ _ _ Hid Hl1). simpl.
    rewrite (update_one_first obj_id _ l1
               (mkDocument (_id announcement)
                  (delete "start_date" (fields announcement))) l2 Hid Hl1).
    simpl. now rewrite Hid, update_outcome_matched.
Qed.

Lemma update_announcement_inv announcement_id message expiration_date
    teacher_username start_date db r :
  fst (update_announcement announcement_id message expiration_date
         teacher_username start_date db) = Ok r ->
  exists obj_id announcement,
    teacher_username ∈ teachers_collection db
    /\ parse announcement_id = Some obj_id
    /\ find_one obj_id (announcements_collection db) = Some announcement
    /\ dates_parse expiration_date start_date = true.
Proof.
  unfold update_announcement.
  destruct (find_teacher teacher_username db) eqn:Ht; [|discriminate].
  apply find_teacher_Some in Ht.
  destruct (parse announcement_id) as [obj_id|]; [|discriminate].
  destruct (find_one obj_id (announcements_collection db))
    as [announcement|] eqn:Hf; [|discriminate].
  destruct (dates_parse expiration_date start_date); [|discriminate].
  intros _. exists obj_id, announcement. auto.
Qed.



End Endpoints.

(** ** Properties of the listings *)

Lemma sample_teacher_known : "t1" ∈ teachers_collection Sample.db.
Proof. change ("t1" ∈ ({[ "t1" ]} : gset string)). now apply elem_of_singleton_2. Qed.

Lemma sample_teacher_unknown : "t2" ∉ teachers_collection Sample.db.
Proof.
  change ("t2" ∉ ({[ "t1" ]} : gset string)).
  rewrite elem_of_singleton. discriminate.
Qed.

(** C1. On a store whose records carry the required fields,
    [get_announcements] returns the stored announcements that are active
    today, and no other: those whose [start_date] is absent or not after
    today and whose [expiration_date] is not before today, both compared
    as strings. *)
Theorem get_announcements_exactly_active (current_date : string)
    (db : database) :
  Forall (fun a => well_formed a = true) (announcements_collection db) ->
  get_announcements current_date db
  = Ok (map view
          (List.filter (active current_date) (announcements_collection db))).
Proof.
  intros Hwf. unfold get_announcements.
  now rewrite (get_announcements_loop_spec current_date _ Hwf).
Qed.

(** On the sample database, on 2024-06-15, the first announcement is
    listed and the second, which starts in July, is not. *)
Lemma get_announcements_exactly_active_sample :
  get_announcements "2024-06-15" Sample.db = Ok [view Sample.doc_a].
Proof.
  apply (get_announcements_exactly_active "2024-06-15" Sample.db).
  repeat constructor.
Defined.

(** C2. For a known teacher and a store whose records carry the required
    fields, [get_all_announcements] returns every stored announcement,
    active or not, each once, in descending order of [expiration_date]
    compared as strings. *)
Theorem get_all_announcements_sorted (teacher_username : string)
    (db : database) :
  teacher_username ∈ teachers_collection db ->
  Forall (fun a => well_formed a = true) (announcements_collection db) ->
  exists announcements,
    get_all_announcements teacher_username db = Ok announcements
    /\ Permutation announcements (map view (announcements_collection db))
    /\ StronglySorted expires_no_earlier announcements.
Proof.
  intros Ht Hwf.
  pose proof (sort_desc_Permutation "expiration_date"
                (announcements_collection db)) as Hperm.
  assert (Hwf' : Forall (fun a => well_formed a = true)
                   (sort_desc "expiration_date" (announcements_collection db))).
  { rewrite Forall_forall in *. intros a Ha. apply Hwf.
    now rewrite <- Hperm. }
  exists (map view (sort_desc "expiration_date" (announcements_collection db))).
  split; [|split].
  - unfold get_all_announcements. rewrite (find_teacher_known _ _ Ht).
    now rewrite (get_all_announcements_loop_spec _ Hwf').
  - now apply Permutation_map.
  - apply view_StronglySorted; [assumption | apply sort_desc_Sorted].
Qed.

(** On the sample database the announcement that expires in December
    comes first. *)
Lemma get_all_announcements_sorted_sample :
  exists announcements,
    get_all_announcements "t1" Sample.db = Ok announcements
    /\ Permutation announcements [view Sample.doc_a; view Sample.doc_b]
    /\ StronglySorted expires_no_earlier announcements.
Proof.
  apply (get_all_announcements_sorted "t1" Sample.db).
  - exact (sample_teacher_known).
  - repeat constructor.
Defined.

(** ** Authentication and identifiers *)

(** C6. When [teacher_username] is not the [_id] of a teacher, each of
    the four endpoints that take it answers 401, whatever the other
    arguments are, and leaves the database as it was. *)
Theorem unknown_teacher_unauthorized (teacher_username : string)
    (db : database) :
  teacher_username ∉ teachers_collection db ->
  get_all_announcements teacher_username db
  = Err (HTTPException 401 "Authentication required")
  /\ (forall message expiration_date start_date inserted_id,
        create_announcement message expiration_date teacher_username
          start_date inserted_id db
        = (Err (HTTPException 401 "Authentication required"), db))
  /\ (forall announcement_id message expiration_date start_date,
        update_announcement announcement_id message expiration_date
          teacher_username start_date db
        = (Err (HTTPException 401 "Authentication required"), db))
  /\ (forall announcement_id,
        delete_announcement announcement_id teacher_username db
        = (Err (HTTPException 401 "Authentication required"), db)).
Proof.
  intros Ht. apply find_teacher_unknown in Ht.
  unfold get_all_announcements, create_announcement, update_announcement,
    delete_announcement.
  rewrite Ht. repeat split.
Qed.

(** The unknown teacher "t2" on the sample database, with a malformed
    identifier and malformed dates. *)
Lemma unknown_teacher_unauthorized_sample :
  get_all_announcements "t2" Sample.db
  = Err (HTTPException 401 "Authentication required")
  /\ create_announcement "M" "2024-13-40" "t2" (Some "soon") Sample.id_c
       Sample.db
     = (Err (HTTPException 401 "Authentication required"), Sample.db)
  /\ update_announcement "no id" "M" "2024-13-40" "t2" None Sample.db
     = (Err (HTTPException 401 "Authentication required"), Sample.db)
  /\ delete_announcement "no id" "t2" Sample.db
     = (Err (HTTPException 401 "Authentication required"), Sample.db).
Proof.
  destruct (unknown_teacher_unauthorized "t2" Sample.db
              sample_teacher_unknown) as (H1 & H2 & H3 & H4).
  exact (conj H1 (conj (H2 _ _ _ _) (conj (H3 _ _ _ _) (H4 _)))).
Defined.




(** ** The record left by an update *)

Section UpdatedFields.

Variables (message expiration_date : string) (old : gmap string value).

Lemma update_doc_message start_date :
  update_doc message expiration_date start_date !! "message"
  = Some (VStr message).
Proof.
  unfold update_doc. destruct start_date as [s|]; simpl;
    [destruct (negb _)|]; now simplify_map_eq.
Qed.

Lemma update_doc_expiration_date start_date :
  update_doc message expiration_date start_date !! "expiration_date"
  = Some (VStr expiration_date).
Proof.
  unfold update_doc. destruct start_date as [s|]; simpl;
    [destruct (negb _)|]; now simplify_map_eq.
Qed.

Lemma update_doc_created_by start_date :
  update_doc message expiration_date start_date !! "created_by" = None.
Proof.
  unfold update_doc. destruct start_date as [s|]; simpl;
    [destruct (negb _)|]; now simplify_map_eq.
Qed.

Lemma update_doc_start_date start_date :
  update_doc message expiration_date start_date !! "start_date"
  = if truthy start_date then VStr <$> start_date else None.
Proof.
  unfold update_doc. destruct start_date as [s|]; simpl;
    [destruct (negb _)|]; now simplify_map_eq.
Qed.

Lemma updated_fields_message start_date :
  updated_fields message expiration_date start_date old !! "message"
  = Some (VStr message).
Proof.
  unfold updated_fields. apply lookup_union_Some_l, update_doc_message.
Qed.

Lemma updated_fields_expiration_date start_date :
  updated_fields message expiration_date start_date old !! "expiration_date"
  = Some (VStr expiration_date).
Proof.
  unfold updated_fields.
  apply lookup_union_Some_l, update_doc_expiration_date.
Qed.

Lemma updated_fields_created_by start_date :
  updated_fields message expiration_date start_date old !! "created_by"
  = old !! "created_by".
Proof.
  unfold updated_fields.
  rewrite lookup_union_r by apply update_doc_created_by.
  destruct (truthy start_date); [reflexivity|].
  now apply lookup_delete_ne.
Qed.

Lemma updated_fields_start_date start_date :
  updated_fields message expiration_date start_date old !! "start_date"
  = if truthy start_date then VStr <$> start_date else None.
Proof.
  unfold updated_fields. destruct (truthy start_date) eqn:E.
  - destruct start_date as [s|]; [|discriminate].
    apply lookup_union_Some_l. now rewrite update_doc_start_date, E.
  - apply lookup_union_None. split.
    + now rewrite update_doc_start_date, E.
    + apply lookup_delete_eq.
Qed.

End UpdatedFields.

Lemma parses_nonempty (s : string) :
  Strptime.parses s = true -> truthy (Some s) = true.
Proof. destruct s; [discriminate | reflexivity]. Qed.

(** ** Properties of update *)

(** C3. An update of an existing announcement by a known teacher, with
    dates that parse, stores the new [message] and [expiration_date];
    when [start_date] is omitted the stored record has no [start_date]
    field afterwards, and when a [start_date] that parses is given it is
    the stored one. *)
Theorem update_announcement_start_date (announcement_id message
    expiration_date teacher_username : string) (start_date : optstr)
    (db : database) (obj_id : ObjectId) (announcement : document) :
  teacher_username ∈ teachers_collection db ->
  parse announcement_id = Some obj_id ->
  find_one obj_id (announcements_collection db) = Some announcement ->
  dates_parse expiration_date start_date = true ->
  exists r stored,
    fst (update_announcement announcement_id message expiration_date
           teacher_username start_date db) = Ok r
    /\ find_one obj_id
         (announcements_collection
            (snd (update_announcement announcement_id message expiration_date
                    teacher_username start_date db))) = Some stored
    /\ fields stored !! "message" = Some (VStr message)
    /\ fields stored !! "expiration_date" = Some (VStr expiration_date)
    /\ (start_date = None -> fields stored !! "start_date" = None)
    /\ (forall s, start_date = Some s -> Strptime.parses s = true ->
                  fields stored !! "start_date" = Some (VStr s)).
Proof.
  intros Ht Hp Hf Hd.
  destruct (update_announcement_ok announcement_id message expiration_date
              teacher_username start_date db obj_id announcement Ht Hp Hf Hd)
    as (l1 & l2 & Hc & Hl1 & ->).
  eexists _, _. simpl. split; [reflexivity|]. split.
  { now apply find_one_first. }
  simpl. split; [apply updated_fields_message|].
  split; [apply updated_fields_expiration_date|].
  rewrite updated_fields_start_date. split.
  - now intros ->.
  - intros s -> Hs. now rewrite (parses_nonempty s Hs).
Qed.

(** The July announcement of the sample database, updated without a
    [start_date]: its stored [start_date] is gone. *)
Lemma update_announcement_start_date_sample :
  exists r stored,
    fst (update_announcement "65a1b2c3d4e5f60718293a4b" "Moved" "2025-01-31"
           "t1" None Sample.db) = Ok r
    /\ find_one Sample.id_b
         (announcements_collection
            (snd (update_announcement "65a1b2c3d4e5f60718293a4b" "Moved"
                    "2025-01-31" "t1" None Sample.db))) = Some stored
    /\ fields stored !! "message" = Some (VStr "Moved")
    /\ fields stored !! "expiration_date" = Some (VStr "2025-01-31")
    /\ fields stored !! "start_date" = None.
Proof.
  destruct (update_announcement_start_date "65a1b2c3d4e5f60718293a4b" "Moved"
              "2025-01-31" "t1" None Sample.db Sample.id_b Sample.doc_b
              sample_teacher_known eq_refl eq_refl eq_refl)
    as (r & stored & H1 & H2 & H3 & H4 & H5 & _).
  exists r, stored. exact (conj H1 (conj H2 (conj H3 (conj H4 (H5 eq_refl))))).
Defined.

(** C8. A successful update leaves [created_by] of the stored record as
    it was, and returns the identifier as it was given, the new
    [message], [expiration_date] and [start_date], and the [created_by]
    of the record found before the update. *)
Theorem update_announcement_created_by (announcement_id message
    expiration_date teacher_username : string) (start_date : optstr)
    (db : database) (r : Response.t) :
  fst (update_announcement announcement_id message expiration_date
         teacher_username start_date db) = Ok r ->
  exists obj_id original stored,
    parse announcement_id = Some obj_id
    /\ find_one obj_id (announcements_collection db) = Some original
    /\ find_one obj_id
         (announcements_collection
            (snd (update_announcement announcement_id message expiration_date
                    teacher_username start_date db))) = Some stored
    /\ fields stored !! "created_by" = fields original !! "created_by"
    /\ r = Response.mk announcement_id (Some message) start_date
             (Some expiration_date) (get original "created_by").
Proof.
  intros Hr.
  destruct (update_announcement_inv _ _ _ _ _ _ _ Hr)
    as (obj_id & original & Ht & Hp & Hf & Hd).
  destruct (update_announcement_ok announcement_id message expiration_date
              teacher_username start_date db obj_id original Ht Hp Hf Hd)
    as (l1 & l2 & Hc & Hl1 & Hu).
  rewrite Hu in Hr |- *. simpl in Hr |- *. injection Hr as <-.
  eexists obj_id, original, _. split; [assumption|]. split; [assumption|].
  split; [now apply find_one_first|]. simpl.
  split; [apply updated_fields_created_by | reflexivity].
Qed.

(** The first sample announcement updated through its identifier in
    upper case: the answer carries the identifier as given. *)
Lemma update_announcement_created_by_sample :
  exists obj_id original stored,
    parse "65A1B2C3D4E5F60718293A4A" = Some obj_id
    /\ find_one obj_id (announcements_collection Sample.db) = Some original
    /\ find_one obj_id
         (announcements_collection
            (snd (update_announcement "65A1B2C3D4E5F60718293A4A" "Moved"
                    "2025-01-31" "t1" (Some "2025-01-01") Sample.db)))
       = Some stored
    /\ fields stored !! "created_by" = fields original !! "created_by"
    /\ Response.mk "65A1B2C3D4E5F60718293A4A" (Some "Moved")
         (Some "2025-01-01") (Some "2025-01-31") (Some "t1")
       = Response.mk "65A1B2C3D4E5F60718293A4A" (Some "Moved")
           (Some "2025-01-01") (Some "2025-01-31")
           (get original "created_by").
Proof.
  apply (update_announcement_created_by "65A1B2C3D4E5F60718293A4A" "Moved"
           "2025-01-31" "t1" (Some "2025-01-01") Sample.db).
  reflexivity.
Defined.

(** C9. [update_announcement] never answers 500.  Its last step answers
    500 exactly when the result of the store's update counts no match
    and no modification; past the existence check that step is given
    the result of an update that matched the record found. *)
Theorem update_announcement_never_internal_error :
  (forall announcement_id message expiration_date teacher_username
          start_date db detail,
      fst (update_announcement announcement_id message expiration_date
             teacher_username start_date db)
      <> Err (HTTPException 500 detail))
  /\ (forall result announcement_id message expiration_date start_date
             announcement,
        update_outcome result announcement_id message expiration_date
          start_date announcement
        = Err (HTTPException 500 "Failed to update announcement")
        <-> matched_count result = 0 /\ modified_count result = 0)
  /\ (forall obj_id op c,
        is_Some (find_one obj_id c) ->
        matched_count (fst (update_one obj_id op c)) = 1).
Proof.
  split; [|split].
  - intros announcement_id message expiration_date teacher_username
      start_date db detail.
    destruct (fst (update_announcement announcement_id message
                     expiration_date teacher_username start_date db))
      as [r|e] eqn:E; [discriminate|].
    revert E. unfold update_announcement.
    destruct (find_teacher teacher_username db) eqn:Ht; simpl;
      [|intros [= <-]; discriminate].
    apply find_teacher_Some in Ht.
    destruct (parse announcement_id) as [obj_id|] eqn:Hp; simpl;
      [|intros [= <-]; discriminate].
    destruct (find_one obj_id (announcements_collection db))
      as [announcement|] eqn:Hf; simpl; [|intros [= <-]; discriminate].
    destruct (dates_parse expiration_date start_date) eqn:Hd; simpl;
      [|intros [= <-]; discriminate].
    intros E.
    destruct (update_announcement_ok announcement_id message expiration_date
                teacher_username start_date db obj_id announcement
                Ht Hp Hf Hd) as (l1 & l2 & _ & _ & Hu).
    unfold update_announcement in Hu.
    rewrite (find_teacher_known _ _ Ht), Hp, Hf, Hd in Hu. simpl in Hu.
    rewrite Hu in E. discriminate.
  - intros result announcement_id message expiration_date start_date
      announcement.
    unfold update_outcome, failed_to_update.
    destruct result as [[|m] [|n]]; simpl; split;
      try discriminate; try (intros [? ?]; discriminate); auto.
  - intros obj_id op c [d Hf].
    destruct (find_one_Some _ _ _ Hf) as (l1 & l2 & -> & Hid & Hl1).
    now rewrite (update_one_first _ _ _ _ _ Hid Hl1).
Qed.

(** ** Properties of create *)

Section AnnouncementDoc.

Variables (message expiration_date teacher_username : string).

Lemma announcement_doc_created_by start_date :
  announcement_doc message expiration_date teacher_username start_date
    !! "created_by" = Some (VStr teacher_username).
Proof.
  unfold announcement_doc. destruct start_date as [s|]; simpl;
    [destruct (negb _)|]; now simplify_map_eq.
Qed.

Lemma announcement_doc_start_date start_date :
  announcement_doc message expiration_date teacher_username start_date
    !! "start_date"
  = if truthy start_date then VStr <$> start_date else None.
Proof.
  unfold announcement_doc. destruct start_date as [s|]; simpl;
    [destruct (negb _)|]; now simplify_map_eq.
Qed.

End AnnouncementDoc.

(** C4. A create that succeeds was called by a known teacher and adds
    one record, at the end of the collection: its [created_by] is the
    teacher's username, and when no [start_date] was given it has no
    [start_date] field. *)
Theorem create_announcement_record (message expiration_date teacher_username
    : string) (start_date : optstr) (inserted_id : ObjectId) (db : database)
    (r : Response.t) :
  fst (create_announcement message expiration_date teacher_username
         start_date inserted_id db) = Ok r ->
  exists stored,
    announcements_collection
      (snd (create_announcement message expiration_date teacher_username
              start_date inserted_id db))
    = announcements_collection db ++ [stored]
    /\ teacher_username ∈ teachers_collection db
    /\ fields stored !! "created_by" = Some (VStr teacher_username)
    /\ (start_date = None -> fields stored !! "start_date" = None)
    /\ Response.created_by r = Some teacher_username.
Proof.
  intros Hr.
  destruct (create_announcement_inv _ _ _ _ _ _ _ Hr) as (Ht & Hd & Hf).
  rewrite (create_announcement_ok _ _ _ _ _ _ Ht Hd Hf) in Hr |- *.
  simpl in Hr |- *. injection Hr as <-.
  eexists. split; [reflexivity|]. split; [assumption|]. simpl.
  split; [apply announcement_doc_created_by|]. split; [|reflexivity].
  intros ->. now rewrite announcement_doc_start_date.
Qed.

(** The round trip of the specification: "M" until 2099-01-01 by "t1",
    without a [start_date]. *)
Lemma create_announcement_record_sample :
  exists stored,
    announcements_collection
      (snd (create_announcement "M" "2099-01-01" "t1" None Sample.id_c
              Sample.db))
    = announcements_collection Sample.db ++ [stored]
    /\ "t1" ∈ teachers_collection Sample.db
    /\ fields stored !! "created_by" = Some (VStr "t1")
    /\ fields stored !! "start_date" = None
    /\ Some "t1" = Some "t1".
Proof.
  destruct (create_announcement_record "M" "2099-01-01" "t1" None Sample.id_c
              Sample.db
              (Response.mk (str Sample.id_c) (Some "M") None
                 (Some "2099-01-01") (Some "t1")) eq_refl)
    as (stored & H1 & H2 & H3 & H4 & H5).
  exists stored. exact (conj H1 (conj H2 (conj H3 (conj (H4 eq_refl) H5)))).
Defined.

(** ** The empty [start_date] *)

(** C10. For create and update, [start_date=""] is handled as no
    [start_date]: it is not parsed, the database left behind and any
    error are the same as without a [start_date], the record created has
    no [start_date] field, and the record updated has none afterwards. *)
Theorem empty_start_date_as_absent (message expiration_date teacher_username
    : string) (db : database) :
  dates_parse expiration_date (Some "") = Strptime.parses expiration_date
  /\ (forall inserted_id,
        snd (create_announcement message expiration_date teacher_username
               (Some "") inserted_id db)
        = snd (create_announcement message expiration_date teacher_username
                 None inserted_id db)
        /\ forall e,
             fst (create_announcement message expiration_date
                    teacher_username (Some "") inserted_id db) = Err e
             <-> fst (create_announcement message expiration_date
                        teacher_username None inserted_id db) = Err e)
  /\ announcement_doc message expiration_date teacher_username (Some "")
       !! "start_date" = None
  /\ (forall announcement_id,
        snd (update_announcement announcement_id message expiration_date
               teacher_username (Some "") db)
        = snd (update_announcement announcement_id message expiration_date
                 teacher_username None db)
        /\ (forall e,
              fst (update_announcement announcement_id message
                     expiration_date teacher_username (Some "") db) = Err e
              <-> fst (update_announcement announcement_id message
                         expiration_date teacher_username None db) = Err e)
        /\ (forall r,
              fst (update_announcement announcement_id message
                     expiration_date teacher_username (Some "") db) = Ok r ->
              exists obj_id stored,
                parse announcement_id = Some obj_id
                /\ find_one obj_id
                     (announcements_collection
                        (snd (update_announcement announcement_id message
                                expiration_date teacher_username (Some "")
                                db))) = Some stored
                /\ fields stored !! "start_date" = None)).
Proof.
  split; [|split; [|split]].
  - unfold dates_parse. simpl. apply andb_true_r.
  - intros inserted_id. unfold create_announcement.
    change (dates_parse expiration_date (Some ""))
      with (dates_parse expiration_date None).
    change (announcement_doc message expiration_date teacher_username
              (Some ""))
      with (announcement_doc message expiration_date teacher_username None).
    destruct (find_teacher teacher_username db); [|now split].
    destruct (negb (dates_parse expiration_date None)); [now split|].
    destruct (insert_one _ _ _) as [[oid|e'] c]; simpl; [|now split].
    split; [reflexivity|]. intros e. split; discriminate.
  - reflexivity.
  - intros announcement_id. split; [|split].
    + unfold update_announcement.
      change (dates_parse expiration_date (Some ""))
        with (dates_parse expiration_date None).
      destruct (find_teacher teacher_username db); [|reflexivity].
      destruct (parse announcement_id) as [obj_id|]; [|reflexivity].
      destruct (find_one obj_id (announcements_collection db));
        [|reflexivity].
      destruct (negb (dates_parse expiration_date None)); [reflexivity|].
      simpl. now destruct (update_one obj_id _ _).
    + intros e. unfold update_announcement.
      change (dates_parse expiration_date (Some ""))
        with (dates_parse expiration_date None).
      destruct (find_teacher teacher_username db); [|reflexivity].
      destruct (parse announcement_id) as [obj_id|]; [|reflexivity].
      destruct (find_one obj_id (announcements_collection db));
        [|reflexivity].
      destruct (negb (dates_parse expiration_date None)); [reflexivity|].
      simpl. destruct (update_one obj_id _ _) as [result c]. simpl.
      unfold update_outcome. destruct (_ && _); [reflexivity|].
      split; discriminate.
    + intros r Hr.
      destruct (update_announcement_inv _ _ _ _ _ _ _ Hr)
        as (obj_id & original & Ht & Hp & Hf & Hd).
      destruct (update_announcement_ok announcement_id message
                  expiration_date teacher_username (Some "") db obj_id
                  original Ht Hp Hf Hd) as (l1 & l2 & Hc & Hl1 & Hu).
      rewrite Hu. simpl. eexists obj_id, _. split; [assumption|].
      split; [now apply find_one_first|]. simpl.
      now rewrite updated_fields_start_date.
Qed.

(** The first sample announcement, which has a [start_date], updated
    with [start_date=""]. *)
Lemma empty_start_date_as_absent_sample :
  exists obj_id stored,
    parse "65a1b2c3d4e5f60718293a4a" = Some obj_id
    /\ find_one obj_id
         (announcements_collection
            (snd (update_announcement "65a1b2c3d4e5f60718293a4a" "Moved"
                    "2025-01-31" "t1" (Some "") Sample.db))) = Some stored
    /\ fields stored !! "start_date" = None.
Proof.
  destruct (empty_start_date_as_absent "Moved" "2025-01-31" "t1" Sample.db)
    as (_ & _ & _ & H).
  destruct (H "65a1b2c3d4e5f60718293a4a") as (_ & _ & H').
  exact (H' (Response.mk "65a1b2c3d4e5f60718293a4a" (Some "Moved") (Some "")
               (Some "2025-01-31") (Some "t1")) eq_refl).
Defined.

(** ** Date validation *)





(** At that input the create succeeds and stores a record. *)
Lemma empty_start_date_create_succeeds :
  fst (create_announcement "M" "2099-01-01" "t1" (Some "") Sample.id_c
         Sample.db)
  = Ok (Response.mk "65a1b2c3d4e5f60718293a4c" (Some "M") (Some "")
          (Some "2099-01-01") (Some "t1")).
Proof. reflexivity. Qed.

(** ** The invariants of the store

    The hypotheses on the store of the theorems above hold of the empty
    store and are kept by every endpoint that writes. *)

Lemma store_ok_empty : store_ok [].
Proof. split; constructor. Qed.

Lemma announcement_doc_well_formed (oid : ObjectId) (message expiration_date
    teacher_username : string) (start_date : optstr) :
  well_formed
    (mkDocument oid
       (announcement_doc message expiration_date teacher_username start_date))
  = true.
Proof.
  unfold well_formed, announcement_doc.
  destruct start_date as [s|]; simpl; [destruct (negb _)|];
    now simplify_map_eq.
Qed.

Lemma create_announcement_store_ok (message expiration_date teacher_username
    : string) (start_date : optstr) (inserted_id : ObjectId) (db : database) :
  store_ok (announcements_collection db) ->
  store_ok
    (announcements_collection
       (snd (create_announcement message expiration_date teacher_username
               start_date inserted_id db))).
Proof.
  intros [Hu Hwf]. unfold create_announcement, insert_one.
  destruct (find_teacher teacher_username db); [|now split].
  destruct (negb (dates_parse expiration_date start_date)); [now split|].
  destruct (find_one inserted_id (announcements_collection db)) eqn:Hf;
    [now split|].
  simpl. split.
  - unfold unique_ids in *. rewrite map_app. simpl.
    apply NoDup_app. split; [assumption|]. split; [|apply NoDup_singleton].
    intros x Hx Hx'. apply list_elem_of_singleton in Hx' as ->.
    apply find_one_None in Hf. rewrite Forall_forall in Hf.
    apply list_elem_of_In, in_map_iff in Hx as (d & Hd & Hin).
    apply (Hf d); [apply list_elem_of_In, Hin | exact Hd].
  - apply Forall_app. split; [assumption|].
    constructor; [apply announcement_doc_well_formed | constructor].
Qed.

Lemma update_announcement_store_ok (announcement_id message expiration_date
    teacher_username : string) (start_date : optstr) (db : database) :
  store_ok (announcements_collection db) ->
  store_ok
    (announcements_collection
       (snd (update_announcement announcement_id message expiration_date
               teacher_username start_date db))).
Proof.
  intros Hok.
  destruct (fst (update_announcement announcement_id message expiration_date
                   teacher_username start_date db)) as [r|e] eqn:Hr.
  - destruct (update_announcement_inv _ _ _ _ _ _ _ Hr)
      as (obj_id & original & Ht & Hp & Hf & Hd).
    destruct (update_announcement_ok announcement_id message expiration_date
                teacher_username start_date db obj_id original Ht Hp Hf Hd)
      as (l1 & l2 & Hc & Hl1 & ->).
    destruct (find_one_Some _ _ _ Hf) as (_ & _ & _ & Hid & _).
    simpl. rewrite Hc in Hok. destruct Hok as [Hu Hwf]. split.
    + unfold unique_ids in *. rewrite map_app in *. simpl in *.
      now rewrite <- Hid.
    + apply Forall_app in Hwf as [Hw1 Hw2].
      apply Forall_cons_1 in Hw2 as [_ Hw2].
      apply Forall_app. split; [assumption|]. constructor; [|assumption].
      unfold well_formed. simpl.
      now rewrite updated_fields_message, updated_fields_expiration_date.
  - revert Hr. unfold update_announcement.
    destruct (find_teacher teacher_username db) eqn:Ht; [|trivial].
    apply find_teacher_Some in Ht.
    destruct (parse announcement_id) as [obj_id|] eqn:Hp; [|trivial].
    destruct (find_one obj_id (announcements_collection db))
      as [original|] eqn:Hf; [|trivial].
    destruct (dates_parse expiration_date start_date) eqn:Hd; [|trivial].
    destruct (update_announcement_ok announcement_id message expiration_date
                teacher_username start_date db obj_id original Ht Hp Hf Hd)
      as (l1 & l2 & _ & _ & Hu).
    unfold update_announcement in Hu.
    rewrite (find_teacher_known _ _ Ht), Hp, Hf, Hd in Hu. simpl in Hu.
    rewrite Hu. discriminate.
Qed.

Lemma delete_announcement_store_ok (announcement_id teacher_username : string)
    (db : database) :
  store_ok (announcements_collection db) ->
  store_ok
    (announcements_collection
       (snd (delete_announcement announcement_id teacher_username db))).
Proof.
  intros Hok. unfold delete_announcement.
  destruct (find_teacher teacher_username db) eqn:Ht; [|trivial].
  destruct (parse announcement_id) as [obj_id|] eqn:Hp; [|trivial].
  destruct (find_one obj_id (announcements_collection db))
    as [original|] eqn:Hf.
  - destruct (find_one_Some _ _ _ Hf) as (l1 & l2 & Hc & Hid & Hl1).
    rewrite Hc, (delete_one_first _ _ _ _ Hid Hl1). simpl.
    rewrite Hc in Hok. destruct Hok as [Hu Hwf]. split.
    + unfold unique_ids in *. rewrite map_app in *. simpl in Hu.
      apply NoDup_app in Hu as (H1 & H2 & H3).
      apply NoDup_cons in H3 as [_ H3].
      apply NoDup_app. repeat split; [assumption| |assumption].
      intros x Hx Hx'. apply (H2 x Hx). now right.
    + apply Forall_app in Hwf as [Hw1 Hw2].
      apply Forall_cons_1 in Hw2 as [_ Hw2].
      now apply Forall_app.
  - now rewrite (delete_one_absent _ _ Hf).
Qed.


(** ** Further properties of the endpoints that write *)

Lemma update_announcement_cases (announcement_id message expiration_date
    teacher_username : string) (start_date : optstr) (db : database) :
  (exists e,
     update_announcement announcement_id message expiration_date
       teacher_username start_date db = (Err e, db))
  \/ (exists obj_id announcement,
        teacher_username ∈ teachers_collection db
        /\ parse announcement_id = Some obj_id
        /\ find_one obj_id (announcements_collection db) = Some announcement
        /\ dates_parse expiration_date start_date = true).
Proof.
  unfold update_announcement.
  destruct (find_teacher teacher_username db) eqn:Ht;
    [|left; eexists; reflexivity].
  apply find_teacher_Some in Ht.
  destruct (parse announcement_id) as [obj_id|];
    [|left; eexists; reflexivity].
  destruct (find_one obj_id (announcements_collection db))
    as [announcement|] eqn:Hf; [|left; eexists; reflexivity].
  destruct (dates_parse expiration_date start_date);
    [|left; eexists; reflexivity].
  right. exists obj_id, announcement. auto.
Qed.

(** A write that answers with an error has not touched the database:
    create, update and delete either succeed or leave every collection
    as it was. *)
Theorem failed_write_leaves_database (db : database) :
  (forall message expiration_date teacher_username start_date inserted_id e,
     fst (create_announcement message expiration_date teacher_username
            start_date inserted_id db) = Err e ->
     snd (create_announcement message expiration_date teacher_username
            start_date inserted_id db) = db)
  /\ (forall announcement_id message expiration_date teacher_username
             start_date e,
        fst (update_announcement announcement_id message expiration_date
               teacher_username start_date db) = Err e ->
        snd (update_announcement announcement_id message expiration_date
               teacher_username start_date db) = db)
  /\ (forall announcement_id teacher_username e,
        fst (delete_announcement announcement_id teacher_username db) = Err e ->
        snd (delete_announcement announcement_id teacher_username db) = db).
Proof.
  split; [|split].
  - intros message expiration_date teacher_username start_date inserted_id e.
    unfold create_announcement, insert_one.
    destruct (find_teacher teacher_username db); [|reflexivity].
    destruct (negb (dates_parse expiration_date start_date)); [reflexivity|].
    destruct (find_one inserted_id (announcements_collection db)); simpl.
    + intros _. apply with_announcements_same.
    + discriminate.
  - intros announcement_id message expiration_date teacher_username
      start_date e He.
    destruct (update_announcement_cases announcement_id message
                expiration_date teacher_username start_date db)
      as [[e' ->]|(obj_id & announcement & Ht & Hp & Hf & Hd)];
      [reflexivity|].
    destruct (update_announcement_ok announcement_id message expiration_date
                teacher_username start_date db obj_id announcement
                Ht Hp Hf Hd) as (l1 & l2 & _ & _ & Hu).
    rewrite Hu in He. discriminate.
  - intros announcement_id teacher_username e.
    unfold delete_announcement.
    destruct (find_teacher teacher_username db) eqn:Ht; [|reflexivity].
    apply find_teacher_Some in Ht.
    destruct (parse announcement_id) as [obj_id|]; [|reflexivity].
    destruct (find_one obj_id (announcements_collection db))
      as [announcement|] eqn:Hf.
    + destruct (find_one_Some _ _ _ Hf) as (l1 & l2 & Hc & Hid & Hl1).
      rewrite Hc, (delete_one_first _ _ _ _ Hid Hl1). discriminate.
    + rewrite (delete_one_absent _ _ Hf). simpl.
      intros _. apply with_announcements_same.
Qed.

(** Three writes on the sample database that fail: a malformed date, an
    identifier that no record has, twice. *)
Lemma failed_write_leaves_database_sample :
  snd (create_announcement "M" "2024-13-40" "t1" None Sample.id_c Sample.db)
  = Sample.db
  /\ snd (update_announcement "65a1b2c3d4e5f60718293a4c" "M" "2099-01-01"
            "t1" None Sample.db) = Sample.db
  /\ snd (delete_announcement "65a1b2c3d4e5f60718293a4c" "t1" Sample.db)
     = Sample.db.
Proof.
  destruct (failed_write_leaves_database Sample.db) as (H1 & H2 & H3).
  split; [|split].
  - exact (H1 "M" "2024-13-40" "t1" None Sample.id_c _ eq_refl).
  - exact (H2 "65a1b2c3d4e5f60718293a4c" "M" "2099-01-01" "t1" None _
             eq_refl).
  - exact (H3 "65a1b2c3d4e5f60718293a4c" "t1" _ eq_refl).
Defined.

Lemma find_one_other (oid oid' : ObjectId) (l1 l2 : collection)
    (d d' : document) :
  _id d = oid -> _id d' = oid -> oid' <> oid ->
  find_one oid' (l1 ++ d' :: l2) = find_one oid' (l1 ++ d :: l2).
Proof.
  intros Hd Hd' Hne. unfold find_one.
  induction l1 as [|x l1 IH]; simpl.
  - assert (E : has_id oid' d = false) by (apply has_id_false; congruence).
    assert (E' : has_id oid' d' = false) by (apply has_id_false; congruence).
    now rewrite E, E'.
  - now rewrite IH.
Qed.

Lemma find_one_other_deleted (oid oid' : ObjectId) (l1 l2 : collection)
    (d : document) :
  _id d = oid -> oid' <> oid ->
  find_one oid' (l1 ++ l2) = find_one oid' (l1 ++ d :: l2).
Proof.
  intros Hd Hne. unfold find_one.
  induction l1 as [|x l1 IH]; simpl.
  - assert (E : has_id oid' d = false) by (apply has_id_false; congruence).
    now rewrite E.
  - now rewrite IH.
Qed.

(** An update never adds, removes or reorders records, and every record
    but the one addressed is found unchanged afterwards. *)
Theorem update_announcement_frame (announcement_id message expiration_date
    teacher_username : string) (start_date : optstr) (db : database) :
  map _id
    (announcements_collection
       (snd (update_announcement announcement_id message expiration_date
               teacher_username start_date db)))
  = map _id (announcements_collection db)
  /\ teachers_collection
       (snd (update_announcement announcement_id message expiration_date
               teacher_username start_date db))
     = teachers_collection db
  /\ forall oid,
       parse announcement_id <> Some oid ->
       find_one oid
         (announcements_collection
            (snd (update_announcement announcement_id message expiration_date
                    teacher_username start_date db)))
       = find_one oid (announcements_collection db).
Proof.
  destruct (update_announcement_cases announcement_id message
              expiration_date teacher_username start_date db)
    as [[e ->]|(obj_id & announcement & Ht & Hp & Hf & Hd)];
    [repeat split|].
  destruct (update_announcement_ok announcement_id message expiration_date
              teacher_username start_date db obj_id announcement
              Ht Hp Hf Hd) as (l1 & l2 & Hc & Hl1 & ->).
  destruct (find_one_Some _ _ _ Hf) as (_ & _ & _ & Hid & _).
  simpl. rewrite Hc. split; [|split].
  - rewrite !map_app. simpl. now rewrite Hid.
  - reflexivity.
  - intros oid Hne. apply (find_one_other obj_id); [assumption|reflexivity|].
    congruence.
Qed.

(** A delete that succeeds removes the first record with the identifier
    and nothing else: the other records stay, in their order, and are
    found as before. *)
Theorem delete_announcement_removes_one (announcement_id teacher_username
    : string) (db : database) (acknowledgment : string) :
  fst (delete_announcement announcement_id teacher_username db)
  = Ok acknowledgment ->
  exists obj_id l1 announcement l2,
    parse announcement_id = Some obj_id
    /\ find_one obj_id (announcements_collection db) = Some announcement
    /\ announcements_collection db = l1 ++ announcement :: l2
    /\ snd (delete_announcement announcement_id teacher_username db)
       = with_announcements db (l1 ++ l2)
    /\ forall oid, oid <> obj_id ->
         find_one oid (l1 ++ l2)
         = find_one oid (announcements_collection db).
Proof.
  unfold delete_announcement.
  destruct (find_teacher teacher_username db) eqn:Ht; [|discriminate].
  apply find_teacher_Some in Ht.
  destruct (parse announcement_id) as [obj_id|]; [|discriminate].
  destruct (find_one obj_id (announcements_collection db))
    as [announcement|] eqn:Hf.
  - destruct (find_one_Some _ _ _ Hf) as (l1 & l2 & Hc & Hid & Hl1).
    rewrite Hc, (delete_one_first _ _ _ _ Hid Hl1). simpl. intros _.
    exists obj_id, l1, announcement, l2. repeat split.
    + now apply find_one_first.
    + intros oid Hne. now apply (find_one_other_deleted obj_id).
  - rewrite (delete_one_absent _ _ Hf). discriminate.
Qed.

(** Deleting the first sample announcement leaves the second. *)
Lemma delete_announcement_removes_one_sample :
  exists obj_id l1 announcement l2,
    parse "65a1b2c3d4e5f60718293a4a" = Some obj_id
    /\ find_one obj_id (announcements_collection Sample.db)
       = Some announcement
    /\ announcements_collection Sample.db = l1 ++ announcement :: l2
    /\ snd (delete_announcement "65a1b2c3d4e5f60718293a4a" "t1" Sample.db)
       = with_announcements Sample.db (l1 ++ l2)
    /\ forall oid, oid <> obj_id ->
         find_one oid (l1 ++ l2)
         = find_one oid (announcements_collection Sample.db).
Proof.
  apply (delete_announcement_removes_one "65a1b2c3d4e5f60718293a4a" "t1"
           Sample.db "Announcement deleted successfully").
  reflexivity.
Defined.

Lemma with_announcements_twice (db : database) (c1 c2 : collection) :
  with_announcements (with_announcements db c1) c2 = with_announcements db c2.
Proof. reflexivity. Qed.

(** Create followed by a delete of the identifier that create returned
    gives back the database as it was before the create. *)
Theorem create_then_delete (message expiration_date teacher_username
    : string) (start_date : optstr) (inserted_id : ObjectId) (db : database)
    (r : Response.t) :
  fst (create_announcement message expiration_date teacher_username
         start_date inserted_id db) = Ok r ->
  parse (Response.id r) = Some inserted_id ->
  delete_announcement (Response.id r) teacher_username
    (snd (create_announcement message expiration_date teacher_username
            start_date inserted_id db))
  = (Ok "Announcement deleted successfully", db).
Proof.
  intros Hr.
  destruct (create_announcement_inv _ _ _ _ _ _ _ Hr) as (Ht & Hd & Hf).
  rewrite (create_announcement_ok _ _ _ _ _ _ Ht Hd Hf) in Hr |- *.
  simpl in Hr |- *. injection Hr as <-. simpl. intros Hp.
  unfold delete_announcement.
  rewrite (find_teacher_known teacher_username
             (with_announcements db _) Ht), Hp.
  simpl. apply find_one_None in Hf.
  rewrite (delete_one_first inserted_id (announcements_collection db)
             (mkDocument inserted_id
                (announcement_doc message expiration_date teacher_username
                   start_date)) [] eq_refl Hf).
  simpl. now rewrite app_nil_r, with_announcements_twice,
    with_announcements_same.
Qed.

Lemma create_then_delete_sample :
  delete_announcement "65a1b2c3d4e5f60718293a4c" "t1"
    (snd (create_announcement "M" "2099-01-01" "t1" None Sample.id_c
            Sample.db))
  = (Ok "Announcement deleted successfully", Sample.db).
Proof.
  apply (create_then_delete "M" "2099-01-01" "t1" None Sample.id_c Sample.db
           (Response.mk "65a1b2c3d4e5f60718293a4c" (Some "M") None
              (Some "2099-01-01") (Some "t1")));
    reflexivity.
Defined.

Lemma announcement_doc_message (message expiration_date teacher_username
    : string) (start_date : optstr) :
  announcement_doc message expiration_date teacher_username start_date
    !! "message" = Some (VStr message).
Proof.
  unfold announcement_doc. destruct start_date as [s|]; simpl;
    [destruct (negb _)|]; now simplify_map_eq.
Qed.

Lemma announcement_doc_expiration_date (message expiration_date
    teacher_username : string) (start_date : optstr) :
  announcement_doc message expiration_date teacher_username start_date
    !! "expiration_date" = Some (VStr expiration_date).
Proof.
  unfold announcement_doc. destruct start_date as [s|]; simpl;
    [destruct (negb _)|]; now simplify_map_eq.
Qed.

Lemma to_py_start_date (start_date : optstr) :
  match (if truthy start_date then VStr <$> start_date else None) with
  | Some v => to_py v
  | None => None
  end
  = if truthy start_date then start_date else None.
Proof.
  destruct start_date as [s|]; simpl; [destruct (negb _)|]; reflexivity.
Qed.

(** What the listings show for an announcement just created is what
    create answered, except that an empty [start_date], which create
    echoes, is shown as null. *)
Theorem create_answer_is_listed (message expiration_date teacher_username
    : string) (start_date : optstr) (inserted_id : ObjectId) (db : database)
    (r : Response.t) :
  fst (create_announcement message expiration_date teacher_username
         start_date inserted_id db) = Ok r ->
  exists stored,
    find_one inserted_id
      (announcements_collection
         (snd (create_announcement message expiration_date teacher_username
                 start_date inserted_id db))) = Some stored
    /\ r = Response.mk (str inserted_id) (Some message) start_date
             (Some expiration_date) (Some teacher_username)
    /\ view stored
       = Response.mk (str inserted_id) (Some message)
           (if truthy start_date then start_date else None)
           (Some expiration_date) (Some teacher_username).
Proof.
  intros Hr.
  destruct (create_announcement_inv _ _ _ _ _ _ _ Hr) as (Ht & Hd & Hf).
  rewrite (create_announcement_ok _ _ _ _ _ _ Ht Hd Hf) in Hr |- *.
  simpl in Hr |- *. injection Hr as <-.
  eexists. split; [|split; [reflexivity|]].
  - apply find_one_first; [reflexivity | now apply find_one_None].
  - unfold view, get. simpl.
    rewrite announcement_doc_message, announcement_doc_expiration_date,
      announcement_doc_created_by, announcement_doc_start_date.
    simpl. now rewrite to_py_start_date.
Qed.

(** A create with [start_date=""]: the answer has the empty string, the
    stored record shows null. *)
Lemma create_answer_is_listed_sample :
  exists stored,
    find_one Sample.id_c
      (announcements_collection
         (snd (create_announcement "M" "2099-01-01" "t1" (Some "")
                 Sample.id_c Sample.db))) = Some stored
    /\ Response.mk "65a1b2c3d4e5f60718293a4c" (Some "M") (Some "")
         (Some "2099-01-01") (Some "t1")
       = Response.mk (str Sample.id_c) (Some "M") (Some "")
           (Some "2099-01-01") (Some "t1")
    /\ view stored
       = Response.mk (str Sample.id_c) (Some "M") None (Some "2099-01-01")
           (Some "t1").
Proof.
  apply (create_answer_is_listed "M" "2099-01-01" "t1" (Some "") Sample.id_c
           Sample.db). reflexivity.
Defined.

(** What the listings show for an announcement after a successful update
    is what the update answered, with the identifier as the store prints
    it and an empty [start_date] shown as null. *)
Theorem update_answer_is_listed (announcement_id message expiration_date
    teacher_username : string) (start_date : optstr) (db : database)
    (r : Response.t) :
  fst (update_announcement announcement_id message expiration_date
         teacher_username start_date db) = Ok r ->
  exists obj_id stored,
    parse announcement_id = Some obj_id
    /\ find_one obj_id
         (announcements_collection
            (snd (update_announcement announcement_id message expiration_date
                    teacher_username start_date db))) = Some stored
    /\ view stored
       = Response.mk (str obj_id) (Response.message r)
           (if truthy start_date then Response.start_date r else None)
           (Response.expiration_date r) (Response.created_by r).
Proof.
  intros Hr.
  destruct (update_announcement_inv _ _ _ _ _ _ _ Hr)
    as (obj_id & original & Ht & Hp & Hf & Hd).
  destruct (update_announcement_ok announcement_id message expiration_date
              teacher_username start_date db obj_id original Ht Hp Hf Hd)
    as (l1 & l2 & Hc & Hl1 & Hu).
  rewrite Hu in Hr |- *. simpl in Hr |- *. injection Hr as <-.
  exists obj_id. eexists. split; [assumption|].
  split; [now apply find_one_first|].
  unfold view, get. simpl.
  rewrite updated_fields_message, updated_fields_expiration_date,
    updated_fields_created_by, updated_fields_start_date.
  simpl. now rewrite to_py_start_date.
Qed.

(** The first sample announcement updated through its identifier in
    upper case: the listing shows the identifier in lower case. *)
Lemma update_answer_is_listed_sample :
  exists obj_id stored,
    parse "65A1B2C3D4E5F60718293A4A" = Some obj_id
    /\ find_one obj_id
         (announcements_collection
            (snd (update_announcement "65A1B2C3D4E5F60718293A4A" "Moved"
                    "2025-01-31" "t1" (Some "2025-01-01") Sample.db)))
       = Some stored
    /\ view stored
       = Response.mk (str obj_id) (Some "Moved") (Some "2025-01-01")
           (Some "2025-01-31") (Some "t1").
Proof.
  apply (update_answer_is_listed "65A1B2C3D4E5F60718293A4A" "Moved"
           "2025-01-31" "t1" (Some "2025-01-01") Sample.db
           (Response.mk "65A1B2C3D4E5F60718293A4A" (Some "Moved")
              (Some "2025-01-01") (Some "2025-01-31") (Some "t1"))).
  reflexivity.
Defined.

Lemma updated_fields_idempotent (message expiration_date : string)
    (start_date : optstr) (old : gmap string value) :
  updated_fields message expiration_date start_date
    (updated_fields message expiration_date start_date old)
  = updated_fields message expiration_date start_date old.
Proof.
  unfold updated_fields. destruct (truthy start_date) eqn:E.
  - now rewrite map_union_assoc, map_union_idemp.
  - apply map_eq. intros i. rewrite !lookup_union.
    destruct (decide (i = "start_date")) as [->|Hne].
    + now rewrite !lookup_delete_eq.
    + rewrite !lookup_delete_ne by congruence. rewrite lookup_union.
      rewrite lookup_delete_ne by congruence.
      now destruct (update_doc message expiration_date start_date !! i),
        (old !! i).
Qed.

(** A successful update made a second time gives the same answer and
    changes nothing: the store then reports a match without a
    modification, which is no failure. *)
Theorem update_announcement_idempotent (announcement_id message
    expiration_date teacher_username : string) (start_date : optstr)
    (db : database) (r : Response.t) :
  fst (update_announcement announcement_id message expiration_date
         teacher_username start_date db) = Ok r ->
  update_announcement announcement_id message expiration_date
    teacher_username start_date
    (snd (update_announcement announcement_id message expiration_date
            teacher_username start_date db))
  = (Ok r,
     snd (update_announcement announcement_id message expiration_date
            teacher_username start_date db)).
Proof.
  intros Hr.
  destruct (update_announcement_inv _ _ _ _ _ _ _ Hr)
    as (obj_id & original & Ht & Hp & Hf & Hd).
  destruct (update_announcement_ok announcement_id message expiration_date
              teacher_username start_date db obj_id original Ht Hp Hf Hd)
    as (l1 & l2 & Hc & Hl1 & Hu).
  rewrite Hu in Hr |- *. simpl in Hr |- *. injection Hr as <-.
  set (stored := mkDocument obj_id
                   (updated_fields message expiration_date start_date
                      (fields original))).
  assert (Hf' : find_one obj_id
                  (announcements_collection
                     (with_announcements db (l1 ++ stored :: l2)))
                = Some stored) by now apply find_one_first.
  destruct (update_announcement_ok announcement_id message expiration_date
              teacher_username start_date
              (with_announcements db (l1 ++ stored :: l2)) obj_id stored
              Ht Hp Hf' Hd) as (k1 & k2 & Hk & _ & ->).
  simpl in Hk. subst stored. simpl.
  rewrite updated_fields_idempotent, <- Hk, with_announcements_twice.
  unfold get at 1. simpl. rewrite updated_fields_created_by.
  reflexivity.
Qed.

Lemma update_announcement_idempotent_sample :
  update_announcement "65a1b2c3d4e5f60718293a4a" "Moved" "2025-01-31" "t1"
    None
    (snd (update_announcement "65a1b2c3d4e5f60718293a4a" "Moved"
            "2025-01-31" "t1" None Sample.db))
  = (Ok (Response.mk "65a1b2c3d4e5f60718293a4a" (Some "Moved") None
           (Some "2025-01-31") (Some "t1")),
     snd (update_announcement "65a1b2c3d4e5f60718293a4a" "Moved"
            "2025-01-31" "t1" None Sample.db)).
Proof.
  apply (update_announcement_idempotent "65a1b2c3d4e5f60718293a4a" "Moved"
           "2025-01-31" "t1" None Sample.db).
  reflexivity.
Defined.

(** ** The records that the endpoints write *)

Lemma valid_record_created (oid : ObjectId) (message expiration_date
    teacher_username : string) (start_date : optstr) :
  dates_parse expiration_date start_date = true ->
  valid_record
    (mkDocument oid
       (announcement_doc message expiration_date teacher_username start_date))
  = true.
Proof.
  unfold valid_record, dates_parse. simpl. intros Hd.
  rewrite announcement_doc_message, announcement_doc_expiration_date,
    announcement_doc_start_date.
  apply andb_true_iff in Hd as [-> Hs]. simpl.
  destruct start_date as [s|]; [|reflexivity].
  destruct (truthy (Some s)); [exact Hs | reflexivity].
Qed.

Lemma valid_record_updated (oid : ObjectId) (message expiration_date : string)
    (start_date : optstr) (old : gmap string value) :
  dates_parse expiration_date start_date = true ->
  valid_record
    (mkDocument oid
       (updated_fields message expiration_date start_date old)) = true.
Proof.
  unfold valid_record, dates_parse. simpl. intros Hd.
  rewrite updated_fields_message, updated_fields_expiration_date,
    updated_fields_start_date.
  apply andb_true_iff in Hd as [-> Hs]. simpl.
  destruct start_date as [s|]; [|reflexivity].
  destruct (truthy (Some s)); [exact Hs | reflexivity].
Qed.

(** The data model is an invariant of the endpoints: when every stored
    record has a [message], an [expiration_date] that is a date and a
    [start_date] that is missing or a date, the same holds after create,
    update and delete, whatever their arguments and outcome. *)
Theorem writes_keep_valid_records (db : database) :
  Forall (fun a => valid_record a = true) (announcements_collection db) ->
  (forall message expiration_date teacher_username start_date inserted_id,
     Forall (fun a => valid_record a = true)
       (announcements_collection
          (snd (create_announcement message expiration_date teacher_username
                  start_date inserted_id db))))
  /\ (forall announcement_id message expiration_date teacher_username
             start_date,
        Forall (fun a => valid_record a = true)
          (announcements_collection
             (snd (update_announcement announcement_id message
                     expiration_date teacher_username start_date db))))
  /\ (forall announcement_id teacher_username,
        Forall (fun a => valid_record a = true)
          (announcements_collection
             (snd (delete_announcement announcement_id teacher_username
                     db)))).
Proof.
  intros Hv. split; [|split].
  - intros message expiration_date teacher_username start_date inserted_id.
    unfold create_announcement, insert_one.
    destruct (find_teacher teacher_username db); [|assumption].
    destruct (dates_parse expiration_date start_date) eqn:Hd; simpl;
      [|assumption].
    destruct (find_one inserted_id (announcements_collection db));
      [assumption|].
    simpl. apply Forall_app. split; [assumption|].
    constructor; [now apply valid_record_created | constructor].
  - intros announcement_id message expiration_date teacher_username
      start_date.
    destruct (update_announcement_cases announcement_id message
                expiration_date teacher_username start_date db)
      as [[e ->]|(obj_id & announcement & Ht & Hp & Hf & Hd)];
      [assumption|].
    destruct (update_announcement_ok announcement_id message expiration_date
                teacher_username start_date db obj_id announcement
                Ht Hp Hf Hd) as (l1 & l2 & Hc & Hl1 & ->).
    simpl. rewrite Hc in Hv. apply Forall_app in Hv as [Hv1 Hv2].
    apply Forall_cons_1 in Hv2 as [_ Hv2].
    apply Forall_app. split; [assumption|].
    constructor; [now apply valid_record_updated | assumption].
  - intros announcement_id teacher_username.
    unfold delete_announcement.
    destruct (find_teacher teacher_username db); [|assumption].
    destruct (parse announcement_id) as [obj_id|]; [|assumption].
    destruct (find_one obj_id (announcements_collection db))
      as [announcement|] eqn:Hf.
    + destruct (find_one_Some _ _ _ Hf) as (l1 & l2 & Hc & Hid & Hl1).
      rewrite Hc, (delete_one_first _ _ _ _ Hid Hl1). simpl.
      rewrite Hc in Hv. apply Forall_app in Hv as [Hv1 Hv2].
      apply Forall_cons_1 in Hv2 as [_ Hv2]. now apply Forall_app.
    + now rewrite (delete_one_absent _ _ Hf).
Qed.

Lemma writes_keep_valid_records_sample :
  Forall (fun a => valid_record a = true)
    (announcements_collection
       (snd (create_announcement "M" "2099-01-01" "t1" (Some "2098-12-01")
               Sample.id_c Sample.db)))
  /\ Forall (fun a => valid_record a = true)
       (announcements_collection
          (snd (update_announcement "65a1b2c3d4e5f60718293a4a" "Moved"
                  "2025-01-31" "t1" None Sample.db)))
  /\ Forall (fun a => valid_record a = true)
       (announcements_collection
          (snd (delete_announcement "65a1b2c3d4e5f60718293a4a" "t1"
                  Sample.db))).
Proof.
  destruct (writes_keep_valid_records Sample.db) as (H1 & H2 & H3).
  - repeat constructor.
  - exact (conj (H1 _ _ _ _ _) (conj (H2 _ _ _ _ _) (H3 _ _))).
Defined.

(** ** Further properties of the listings *)

Lemma get_announcements_loop_app (current_date : string)
    (l1 rest : collection) :
  Forall (fun a => well_formed a = true) l1 ->
  forall acc,
    get_announcements_loop current_date (l1 ++ rest) acc
    = get_announcements_loop current_date rest
        (acc ++ map view (List.filter (active current_date) l1)).
Proof.
  induction 1 as [|a l1 Ha _ IH]; intros acc; simpl.
  - now rewrite app_nil_r.
  - unfold active at 1. rewrite not_started_spec.
    destruct (match get a "start_date" with
              | Some s => str_ge current_date s
              | None => true
              end); simpl; [|apply IH].
    destruct (well_formed_expiration a Ha) as [e He].
    assert (Hg : get a "expiration_date" = Some e)
      by (unfold get; now rewrite He).
    rewrite Hg.
    destruct (str_le current_date e); [|apply IH].
    rewrite (render_well_formed a Ha). simpl.
    change (get_announcements_loop current_date (l1 ++ rest)
              (acc ++ [view a])
            = get_announcements_loop current_date rest
                (acc ++ view a
                     :: map view (List.filter (active current_date) l1))).
    rewrite IH, <- app_assoc. reflexivity.
Qed.

(** An announcement that has not started is passed over before any other
    field of it is read: the listing is the same as without it, even
    when the record lacks its [message] or [expiration_date]. *)
Theorem get_announcements_skips_not_started (current_date : string)
    (l1 l2 : collection) (a : document) (teachers : gset string) :
  not_started current_date (get a "start_date") = true ->
  get_announcements current_date (mkDatabase (l1 ++ a :: l2) teachers)
  = get_announcements current_date (mkDatabase (l1 ++ l2) teachers).
Proof.
  intros Ha. unfold get_announcements. simpl. generalize (@nil Response.t).
  induction l1 as [|x l1 IH]; intros acc; simpl.
  - now rewrite Ha.
  - destruct (not_started current_date (get x "start_date")); [apply IH|].
    destruct (get x "expiration_date") as [e|]; [|reflexivity].
    destruct (str_le current_date e); [|apply IH].
    destruct (render x) as [r|err]; simpl; [apply IH | reflexivity].
Qed.

(** On 2024-06-15 a July announcement without any other field does not
    disturb the listing. *)
Lemma get_announcements_skips_not_started_sample :
  get_announcements "2024-06-15"
    (mkDatabase
       [Sample.doc_a;
        mkDocument Sample.id_c {[ "start_date" := VStr "2024-07-01" ]}]
       {[ "t1" ]})
  = get_announcements "2024-06-15" (mkDatabase [Sample.doc_a] {[ "t1" ]}).
Proof.
  apply (get_announcements_skips_not_started "2024-06-15" [Sample.doc_a] []
           (mkDocument Sample.id_c {[ "start_date" := VStr "2024-07-01" ]})).
  reflexivity.
Defined.

(** One stored record that has started and has no [expiration_date]
    makes the listing of active announcements fail as a whole, with the
    [TypeError] of comparing a string with [None]. *)
Theorem get_announcements_type_error (current_date : string)
    (l1 l2 : collection) (a : document) (teachers : gset string) :
  Forall (fun x => well_formed x = true) l1 ->
  not_started current_date (get a "start_date") = false ->
  get a "expiration_date" = None ->
  get_announcements current_date (mkDatabase (l1 ++ a :: l2) teachers)
  = Err TypeError.
Proof.
  intros Hl1 Hs He. unfold get_announcements. simpl.
  rewrite (get_announcements_loop_app current_date l1 (a :: l2) Hl1).
  simpl. now rewrite Hs, He.
Qed.

Lemma get_announcements_type_error_sample :
  get_announcements "2024-06-15"
    (mkDatabase
       [Sample.doc_a; mkDocument Sample.id_c {[ "message" := VStr "M" ]};
        Sample.doc_b]
       {[ "t1" ]})
  = Err TypeError.
Proof.
  apply (get_announcements_type_error "2024-06-15" [Sample.doc_a]
           [Sample.doc_b] (mkDocument Sample.id_c {[ "message" := VStr "M" ]})).
  - repeat constructor.
  - reflexivity.
  - reflexivity.
Defined.

Lemma in_active_listing (current_date : string) (c : collection)
    (r : Response.t) :
  In r (map view (List.filter (active current_date) c))
  <-> exists a, In a c /\ view a = r /\ active current_date a = true.
Proof.
  rewrite in_map_iff. split.
  - intros (a & Hr & Ha). apply filter_In in Ha as [Ha Hact]. eauto.
  - intros (a & Ha & Hr & Hact). exists a. split; [assumption|].
    apply filter_In. auto.
Qed.

(** Every announcement in the listing of active announcements is in the
    listing of all announcements. *)
Theorem active_listing_within_all (current_date teacher_username : string)
    (db : database) :
  teacher_username ∈ teachers_collection db ->
  Forall (fun a => well_formed a = true) (announcements_collection db) ->
  exists active_ones all,
    get_announcements current_date db = Ok active_ones
    /\ get_all_announcements teacher_username db = Ok all
    /\ incl active_ones all.
Proof.
  intros Ht Hwf.
  pose proof (sort_desc_Permutation "expiration_date"
                (announcements_collection db)) as Hperm.
  assert (Hwf' : Forall (fun a => well_formed a = true)
                   (sort_desc "expiration_date" (announcements_collection db))).
  { rewrite Forall_forall in *. intros a Ha. apply Hwf.
    now rewrite <- Hperm. }
  eexists _, _. split; [|split].
  - unfold get_announcements.
    now rewrite (get_announcements_loop_spec current_date _ Hwf).
  - unfold get_all_announcements. rewrite (find_teacher_known _ _ Ht).
    now rewrite (get_all_announcements_loop_spec _ Hwf').
  - simpl. intros r Hr. apply in_active_listing in Hr as (a & Ha & <- & _).
    apply in_map. apply (Permutation_in a (Permutation_sym Hperm) Ha).
Qed.

Lemma active_listing_within_all_sample :
  exists active_ones all,
    get_announcements "2024-06-15" Sample.db = Ok active_ones
    /\ get_all_announcements "t1" Sample.db = Ok all
    /\ incl active_ones all.
Proof.
  apply (active_listing_within_all "2024-06-15" "t1" Sample.db).
  - exact sample_teacher_known.
  - repeat constructor.
Defined.

Lemma view_same_dates (a b : document) :
  view a = view b ->
  get a "start_date" = get b "start_date"
  /\ get a "expiration_date" = get b "expiration_date".
Proof. unfold view. intros [= _ _ Hs He _]. auto. Qed.

Lemma active_bounds (today : string) (a : document) :
  active today a = true <->
  (forall s, get a "start_date" = Some s -> str_le s today = true)
  /\ exists e, get a "expiration_date" = Some e /\ str_le today e = true.
Proof.
  unfold active, str_ge, str_le. rewrite andb_true_iff. split.
  - intros [Hs He]. split.
    + intros s E. now rewrite E in Hs.
    + destruct (get a "expiration_date") as [e|]; [eauto | discriminate].
  - intros [Hs (e & -> & He)]. split; [|assumption].
    destruct (get a "start_date") as [s|]; [now apply Hs | reflexivity].
Qed.

(** No ordering between the two dates is checked, and an announcement
    whose [start_date] is after its [expiration_date] is listed as
    active on no day. *)
Theorem inverted_dates_never_active (current_date : string) (db : database)
    (a : document) (s e : string) :
  Forall (fun x => well_formed x = true) (announcements_collection db) ->
  get a "start_date" = Some s ->
  get a "expiration_date" = Some e ->
  str_lt e s = true ->
  exists announcements,
    get_announcements current_date db = Ok announcements
    /\ ~ In (view a) announcements.
Proof.
  intros Hwf Hs He Hlt. eexists. split.
  - unfold get_announcements.
    now rewrite (get_announcements_loop_spec current_date _ Hwf).
  - simpl. intros Hin.
    apply in_active_listing in Hin as (b & _ & Hv & Hact).
    apply view_same_dates in Hv as [Hvs Hve].
    rewrite Hs in Hvs. rewrite He in Hve.
    apply active_bounds in Hact as [Hb (e' & He' & Hle)].
    rewrite Hve in He'. injection He' as <-.
    specialize (Hb s Hvs).
    rewrite str_lt_not_ge in Hlt. unfold str_ge in Hlt.
    assert (H : String.leb s e = true)
      by exact (str_le_trans s current_date e Hb Hle).
    rewrite H in Hlt. discriminate.
Qed.

(** An announcement that starts in July 2024 and expired in June 2024,
    stored with the sample announcements, on 2024-06-15. *)
Lemma inverted_dates_never_active_sample :
  exists announcements,
    get_announcements "2024-06-15"
      (mkDatabase
         [Sample.doc_a;
          mkDocument Sample.id_c
            {[ "message" := VStr "M"; "start_date" := VStr "2024-07-01";
               "expiration_date" := VStr "2024-06-30" ]}]
         {[ "t1" ]}) = Ok announcements
    /\ ~ In (view (mkDocument Sample.id_c
                     {[ "message" := VStr "M";
                        "start_date" := VStr "2024-07-01";
                        "expiration_date" := VStr "2024-06-30" ]}))
            announcements.
Proof.
  apply (inverted_dates_never_active "2024-06-15" _ _ "2024-07-01"
           "2024-06-30").
  - repeat constructor.
  - reflexivity.
  - reflexivity.
  - reflexivity.
Defined.

(** The days on which an announcement is listed as active form an
    interval of the string order: listed on two days, it is listed on
    every day between them. *)
Theorem active_days_form_interval (t1 t2 t3 : string) (db : database)
    (r : Response.t) :
  Forall (fun x => well_formed x = true) (announcements_collection db) ->
  str_le t1 t2 = true -> str_le t2 t3 = true ->
  (exists l1, get_announcements t1 db = Ok l1 /\ In r l1) ->
  (exists l3, get_announcements t3 db = Ok l3 /\ In r l3) ->
  exists l2, get_announcements t2 db = Ok l2 /\ In r l2.
Proof.
  intros Hwf H12 H23 (l1 & Hl1 & Hr1) (l3 & Hl3 & Hr3).
  unfold get_announcements in *.
  rewrite (get_announcements_loop_spec t1 _ Hwf) in Hl1.
  rewrite (get_announcements_loop_spec t3 _ Hwf) in Hl3.
  rewrite (get_announcements_loop_spec t2 _ Hwf).
  injection Hl1 as <-. injection Hl3 as <-. simpl in *.
  eexists. split; [reflexivity|]. simpl.
  apply in_active_listing in Hr1 as (a & Ha & Hva & Hact1).
  apply in_active_listing in Hr3 as (b & _ & Hvb & Hact3).
  apply in_active_listing. exists a. split; [assumption|].
  split; [assumption|].
  destruct (view_same_dates a b) as [_ Hve]; [congruence|].
  apply active_bounds in Hact1 as [Hs1 _].
  apply active_bounds in Hact3 as [_ (e & He & Hle)].
  apply active_bounds. split.
  - intros s Hs. exact (str_le_trans s t1 t2 (Hs1 s Hs) H12).
  - exists e. split; [congruence|]. exact (str_le_trans t2 t3 e H23 Hle).
Qed.

(** The first sample announcement on the 5th, the 15th and the 25th of
    June 2024. *)
Lemma active_days_form_interval_sample :
  exists l2,
    get_announcements "2024-06-15" Sample.db = Ok l2
    /\ In (view Sample.doc_a) l2.
Proof.
  apply (active_days_form_interval "2024-06-05" "2024-06-15" "2024-06-25"
           Sample.db (view Sample.doc_a)).
  - repeat constructor.
  - reflexivity.
  - reflexivity.
  - eexists. split; [reflexivity | left; reflexivity].
  - eexists. split; [reflexivity | left; reflexivity].
Defined.

Lemma render_has_keys (a : document) :
  (has_keys a = true /\ render a = Ok (view a))
  \/ (has_keys a = false
      /\ (render a = Err (KeyError "message")
          \/ render a = Err (KeyError "expiration_date"))).
Proof.
  unfold has_keys, render, view, getitem, get.
  destruct (fields a !! "message") as [m|]; simpl; [|right; auto].
  destruct (fields a !! "expiration_date") as [e|]; simpl;
    [left | right]; auto.
Qed.

Lemma get_all_announcements_loop_keys (c : collection) :
  forall acc,
    (forallb has_keys c = true
     /\ get_all_announcements_loop c acc = Ok (acc ++ map view c))
    \/ (forallb has_keys c = false
        /\ (get_all_announcements_loop c acc = Err (KeyError "message")
            \/ get_all_announcements_loop c acc
               = Err (KeyError "expiration_date"))).
Proof.
  induction c as [|a c IH]; intros acc; simpl.
  - left. now rewrite app_nil_r.
  - destruct (render_has_keys a) as [[-> ->]|[-> [-> | ->]]]; simpl;
      [|right; auto|right; auto].
    change (mbind (fun r => get_all_announcements_loop c (acc ++ [r]))
              (Ok (view a)))
      with (get_all_announcements_loop c (acc ++ [view a])).
    destruct (IH (acc ++ [view a])) as [[-> ->]|[-> H]].
    + left. now rewrite <- app_assoc.
    + right. auto.
Qed.

Lemma forallb_Permutation {A} (f : A -> bool) (l1 l2 : list A) :
  Permutation l1 l2 -> forallb f l1 = forallb f l2.
Proof.
  induction 1; simpl; try congruence.
  now destruct (f x), (f y).
Qed.

(** For a known teacher the listing of all announcements is all or
    nothing: it returns one entry per stored record when every record
    has the keys [message] and [expiration_date], and raises [KeyError]
    for one of the two keys when some record lacks one. *)
Theorem get_all_announcements_key_error (teacher_username : string)
    (db : database) :
  teacher_username ∈ teachers_collection db ->
  (forallb has_keys (announcements_collection db) = true
   /\ exists announcements,
        get_all_announcements teacher_username db = Ok announcements
        /\ length announcements = length (announcements_collection db))
  \/ (forallb has_keys (announcements_collection db) = false
      /\ (get_all_announcements teacher_username db
          = Err (KeyError "message")
          \/ get_all_announcements teacher_username db
             = Err (KeyError "expiration_date"))).
Proof.
  intros Ht. unfold get_all_announcements.
  rewrite (find_teacher_known _ _ Ht).
  pose proof (sort_desc_Permutation "expiration_date"
                (announcements_collection db)) as Hperm.
  rewrite <- (forallb_Permutation has_keys _ _ Hperm).
  destruct (get_all_announcements_loop_keys
              (sort_desc "expiration_date" (announcements_collection db)) [])
    as [[-> ->]|[-> H]]; [left | right; auto].
  split; [reflexivity|]. eexists. split; [reflexivity|].
  simpl. rewrite length_map. now apply Permutation_length.
Qed.

(** A store with a record that has no [message]. *)
Lemma get_all_announcements_key_error_sample :
  get_all_announcements "t1"
    (mkDatabase
       [Sample.doc_a;
        mkDocument Sample.id_c {[ "expiration_date" := VStr "2024-01-01" ]}]
       {[ "t1" ]})
  = Err (KeyError "message").
Proof.
  destruct (get_all_announcements_key_error "t1"
              (mkDatabase
                 [Sample.doc_a;
                  mkDocument Sample.id_c
                    {[ "expiration_date" := VStr "2024-01-01" ]}]
                 {[ "t1" ]}) sample_teacher_known)
    as [[H _]|[_ [H|H]]].
  - discriminate H.
  - exact H.
  - discriminate H.
Defined.

(** ** Dates as strings and as calendar dates *)

Section PaddedDates.

Local Open Scope N_scope.

Lemma digit_Some (c : ascii) (n : N) :
  Strptime.digit c = Some n -> N_of_ascii c = 48 + n /\ n <= 9.
Proof.
  unfold Strptime.digit.
  destruct (48 <=? N_of_ascii c) eqn:E1; simpl; [|discriminate].
  destruct (N_of_ascii c <=? 57) eqn:E2; [|discriminate].
  intros [= <-]. apply N.leb_le in E1, E2. lia.
Qed.

(** On an ASCII digit [\d] reads that digit. *)
Lemma decimal_digit (c : ascii) (n : N) (rest : list ascii) :
  Strptime.digit c = Some n -> Strptime.decimal (c :: rest) = Some (n, rest).
Proof.
  intros H. apply digit_Some in H as [E Hn].
  unfold Strptime.decimal, Strptime.code_point. rewrite E.
  assert (H1 : (48 + n <? 128) = true) by (apply N.ltb_lt; lia).
  rewrite H1. unfold Strptime.decimal_zeros. cbn [List.find].
  assert (H2 : ((48 <=? 48 + n) && (48 + n <=? 48 + 9))%bool = true).
  { apply andb_true_iff. split; apply N.leb_le; lia. }
  rewrite H2. f_equal. f_equal. lia.
Qed.

Lemma then_decimal_elem (f : ascii -> option N) (a b : ascii)
    (rest : list ascii) (y v : N) (s : list ascii) :
  Strptime.digit b = Some y ->
  (v, s) ∈ Strptime.then_decimal f (a :: b :: rest) ->
  exists x, f a = Some x /\ v = 10 * x + y /\ s = rest.
Proof.
  intros Hb. unfold Strptime.then_decimal.
  rewrite (decimal_digit b y rest Hb).
  destruct (f a) as [x|]; [|intros H; now apply elem_of_nil in H].
  intros H. apply list_elem_of_singleton in H. injection H as -> ->.
  now exists x.
Qed.

Lemma digit_in_Some (lo hi : N) (c : ascii) (n : N) :
  Strptime.digit_in lo hi c = Some n -> Strptime.digit c = Some n.
Proof.
  unfold Strptime.digit_in. destruct (Strptime.digit c) as [k|]; [|discriminate].
  destruct (_ && _); [trivial | discriminate].
Qed.

Lemma digit_not_dash (c : ascii) (n : N) :
  Strptime.digit c = Some n -> Strptime.dash (c :: nil) = nil
  /\ forall rest, Strptime.dash (c :: rest) = nil.
Proof.
  intros H. assert (E : Ascii.eqb c "-" = false).
  { destruct (Ascii.eqb_spec c "-") as [->|]; [discriminate H | reflexivity]. }
  unfold Strptime.dash. now rewrite E.
Qed.

Lemma digit_not_blank (c : ascii) (n : N) :
  Strptime.digit c = Some n -> Strptime.blank c = None.
Proof.
  intros H. unfold Strptime.blank.
  destruct (Ascii.eqb_spec c " ") as [->|]; [discriminate H | reflexivity].
Qed.

Lemma two_elem (f g : ascii -> option N) (a b : ascii) (rest : list ascii)
    (v : N) (s : list ascii) :
  (v, s) ∈ Strptime.two f g (a :: b :: rest) ->
  exists x y, f a = Some x /\ g b = Some y /\ v = 10 * x + y /\ s = rest.
Proof.
  unfold Strptime.two. destruct (f a) as [x|], (g b) as [y|];
    try (intros H; now apply elem_of_nil in H).
  intros H. apply list_elem_of_singleton in H. injection H as -> ->.
  now exists x, y.
Qed.

Lemma one_elem (f : ascii -> option N) (a : ascii) (rest : list ascii)
    (v : N) (s : list ascii) :
  (v, s) ∈ Strptime.one f (a :: rest) -> f a = Some v /\ s = rest.
Proof.
  unfold Strptime.one. destruct (f a) as [x|];
    try (intros H; now apply elem_of_nil in H).
  intros H. apply list_elem_of_singleton in H. injection H as -> ->. auto.
Qed.

(** On two digits, a group reads both as a number or only the first. *)
Lemma group_m_digits (a b : ascii) (rest : list ascii) (x y v : N)
    (s : list ascii) :
  Strptime.digit a = Some x -> Strptime.digit b = Some y ->
  (v, s) ∈ Strptime.group_m (a :: b :: rest) ->
  (v = 10 * x + y /\ s = rest) \/ s = b :: rest.
Proof.
  intros Ha Hb. unfold Strptime.group_m. rewrite !elem_of_app.
  intros [H|[H|H]].
  - apply two_elem in H as (x' & y' & Hx & Hy & -> & ->).
    apply digit_in_Some in Hx, Hy. left. split; congruence.
  - apply two_elem in H as (x' & y' & Hx & Hy & -> & ->).
    apply digit_in_Some in Hx, Hy. left. split; congruence.
  - apply one_elem in H as [_ ->]. now right.
Qed.

Lemma group_d_digits (a b : ascii) (rest : list ascii) (x y v : N)
    (s : list ascii) :
  Strptime.digit a = Some x -> Strptime.digit b = Some y ->
  (v, s) ∈ Strptime.group_d (a :: b :: rest) ->
  (v = 10 * x + y /\ s = rest) \/ s = b :: rest.
Proof.
  intros Ha Hb. unfold Strptime.group_d. rewrite !elem_of_app.
  intros [H|[H|[H|[H|H]]]].
  - apply two_elem in H as (x' & y' & Hx & Hy & -> & ->).
    apply digit_in_Some in Hx, Hy. left. split; congruence.
  - apply (then_decimal_elem _ _ _ _ y) in H as (x' & Hx & -> & ->);
      [|assumption].
    apply digit_in_Some in Hx. left. split; congruence.
  - apply two_elem in H as (x' & y' & Hx & Hy & -> & ->).
    apply digit_in_Some in Hx, Hy. left. split; congruence.
  - apply one_elem in H as [_ ->]. now right.
  - apply two_elem in H as (x' & y' & Hx & _).
    rewrite (digit_not_blank a x Ha) in Hx. discriminate.
Qed.

End PaddedDates.

Section PaddedOrder.

Local Open Scope N_scope.

Variables (y1 y2 y3 y4 m1 m2 d1 d2 : ascii).
Variables (a1 a2 a3 a4 b1 b2 c1 c2 : N).
Hypotheses (Hy1 : Strptime.digit y1 = Some a1)
           (Hy2 : Strptime.digit y2 = Some a2)
           (Hy3 : Strptime.digit y3 = Some a3)
           (Hy4 : Strptime.digit y4 = Some a4)
           (Hm1 : Strptime.digit m1 = Some b1)
           (Hm2 : Strptime.digit m2 = Some b2)
           (Hd1 : Strptime.digit d1 = Some c1)
           (Hd2 : Strptime.digit d2 = Some c2).

(** Every match of the expression on [dddd-dd-dd] that uses up the text
    reads the three numbers in full. *)
Lemma matches_padded (y m d : N) :
  (y, m, d, []) ∈ Strptime.matches
                    [y1; y2; y3; y4; "-"%char; m1; m2; "-"%char; d1; d2] ->
  y = 1000 * a1 + 100 * a2 + 10 * a3 + a4
  /\ m = 10 * b1 + b2 /\ d = 10 * c1 + c2.
Proof.
  unfold Strptime.matches. intros H.
  apply list_elem_of_bind in H as ([y0 s1] & H & HY).
  unfold Strptime.group_Y in HY.
  rewrite (decimal_digit _ _ _ Hy1), (decimal_digit _ _ _ Hy2),
    (decimal_digit _ _ _ Hy3), (decimal_digit _ _ _ Hy4) in HY.
  apply list_elem_of_singleton in HY. injection HY as -> ->.
  apply list_elem_of_bind in H as (s2 & H & Hdash).
  apply list_elem_of_singleton in Hdash as ->.
  apply list_elem_of_bind in H as ([m0 s3] & H & HM).
  apply list_elem_of_bind in H as (s4 & H & Hdash).
  apply list_elem_of_bind in H as ([d0 s5] & H & HD).
  apply list_elem_of_singleton in H. injection H as -> -> -> <-.
  destruct (group_m_digits _ _ _ _ _ _ _ Hm1 Hm2 HM) as [[-> ->]| ->].
  - apply list_elem_of_singleton in Hdash as ->.
    destruct (group_d_digits _ _ _ _ _ _ _ Hd1 Hd2 HD) as [[-> _]|E];
      [auto | discriminate E].
  - rewrite (proj2 (digit_not_dash m2 b2 Hm2)) in Hdash.
    now apply elem_of_nil in Hdash.
Qed.

Lemma strptime_padded (y m d : N) :
  Strptime.strptime
    (string_of_list_ascii
       [y1; y2; y3; y4; "-"%char; m1; m2; "-"%char; d1; d2])
  = Some (y, m, d) ->
  y = 1000 * a1 + 100 * a2 + 10 * a3 + a4
  /\ m = 10 * b1 + b2 /\ d = 10 * c1 + c2.
Proof.
  unfold Strptime.strptime. rewrite list_ascii_of_string_of_list_ascii.
  destruct (Strptime.matches _) as [|[[[y' m'] d'] rest] tl] eqn:E;
    [discriminate|].
  destruct rest; [|discriminate].
  destruct (Strptime.is_date y' m' d'); [|discriminate].
  intros [= -> -> ->]. apply matches_padded. rewrite E. left.
Qed.

End PaddedOrder.

Section PaddedCompare.

Local Open Scope N_scope.

(** Calendar order is the order of the numbers [yyyymmdd]. *)
Lemma date_le_number (y m d y' m' d' : N) :
  m < 100 -> d < 100 -> m' < 100 -> d' < 100 ->
  date_le (y, m, d) (y', m', d')
  = (10000 * y + 100 * m + d <=? 10000 * y' + 100 * m' + d').
Proof.
  intros Hm Hd Hm' Hd'. unfold date_le.
  destruct (N.ltb_spec y y'), (N.eqb_spec y y'), (N.ltb_spec m m'),
    (N.eqb_spec m m'), (N.leb_spec d d'),
    (N.leb_spec (10000 * y + 100 * m + d) (10000 * y' + 100 * m' + d'));
    cbn [orb andb]; try reflexivity; lia.
Qed.

Ltac compare_digits :=
  match goal with
  | |- context [N.compare (48 + ?a) (48 + ?b)] =>
      destruct (N.compare_spec (48 + a) (48 + b))
  end.

Ltac decide_leb :=
  symmetry; first [apply N.leb_le; lia | apply N.leb_gt; lia].

(** On [dddd-dd-dd] the order of the strings is the order of the
    numbers they spell. *)
Lemma str_le_padded (y1 y2 y3 y4 m1 m2 d1 d2 : ascii)
    (z1 z2 z3 z4 n1 n2 e1 e2 : ascii) (a1 a2 a3 a4 b1 b2 c1 c2 : N)
    (p1 p2 p3 p4 q1 q2 r1 r2 : N) :
  Strptime.digit y1 = Some a1 -> Strptime.digit y2 = Some a2 ->
  Strptime.digit y3 = Some a3 -> Strptime.digit y4 = Some a4 ->
  Strptime.digit m1 = Some b1 -> Strptime.digit m2 = Some b2 ->
  Strptime.digit d1 = Some c1 -> Strptime.digit d2 = Some c2 ->
  Strptime.digit z1 = Some p1 -> Strptime.digit z2 = Some p2 ->
  Strptime.digit z3 = Some p3 -> Strptime.digit z4 = Some p4 ->
  Strptime.digit n1 = Some q1 -> Strptime.digit n2 = Some q2 ->
  Strptime.digit e1 = Some r1 -> Strptime.digit e2 = Some r2 ->
  str_le
    (string_of_list_ascii
       [y1; y2; y3; y4; "-"%char; m1; m2; "-"%char; d1; d2])
    (string_of_list_ascii
       [z1; z2; z3; z4; "-"%char; n1; n2; "-"%char; e1; e2])
  = date_le
      (1000 * a1 + 100 * a2 + 10 * a3 + a4, 10 * b1 + b2, 10 * c1 + c2)
      (1000 * p1 + 100 * p2 + 10 * p3 + p4, 10 * q1 + q2, 10 * r1 + r2).
Proof.
  intros Hy1 Hy2 Hy3 Hy4 Hm1 Hm2 Hd1 Hd2 Hz1 Hz2 Hz3 Hz4 Hn1 Hn2 He1 He2.
  apply digit_Some in Hy1 as [Ey1 ?], Hy2 as [Ey2 ?], Hy3 as [Ey3 ?],
    Hy4 as [Ey4 ?], Hm1 as [Em1 ?], Hm2 as [Em2 ?], Hd1 as [Ed1 ?],
    Hd2 as [Ed2 ?], Hz1 as [Ez1 ?], Hz2 as [Ez2 ?], Hz3 as [Ez3 ?],
    Hz4 as [Ez4 ?], Hn1 as [En1 ?], Hn2 as [En2 ?], He1 as [Ee1 ?],
    He2 as [Ee2 ?].
  rewrite date_le_number by lia.
  unfold str_le, String.leb.
  cbn [string_of_list_ascii String.compare]. unfold Ascii.compare.
  rewrite !N.compare_refl.
  rewrite Ey1, Ey2, Ey3, Ey4, Em1, Em2, Ed1, Ed2, Ez1, Ez2, Ez3, Ez4, En1,
    En2, Ee1, Ee2.
  clear Ey1 Ey2 Ey3 Ey4 Em1 Em2 Ed1 Ed2 Ez1 Ez2 Ez3 Ez4 En1 En2 Ee1 Ee2.
  compare_digits; [|decide_leb|decide_leb].
  compare_digits; [|decide_leb|decide_leb].
  compare_digits; [|decide_leb|decide_leb].
  compare_digits; [|decide_leb|decide_leb].
  compare_digits; [|decide_leb|decide_leb].
  compare_digits; [|decide_leb|decide_leb].
  compare_digits; [|decide_leb|decide_leb].
  compare_digits; decide_leb.
Qed.

End PaddedCompare.

Ltac padded_digits H :=
  repeat match type of H with
         | (_ && _)%bool = true =>
             let H' := fresh "Hdash" in
             apply andb_true_iff in H as [H H']
         end;
  cbn [forallb] in H;
  repeat match type of H with
         | context [Strptime.digit ?c] =>
             let n := fresh "n" in
             let E := fresh "Hdigit" in
             destruct (Strptime.digit c) as [n|] eqn:E; [|discriminate H]
         end.

(** For dates written in full, [dddd-dd-dd], the string comparison that
    the listing makes is the comparison of the calendar dates that
    [strptime] reads from them. *)
Theorem padded_dates_in_calendar_order (s1 s2 : string) (t1 t2 : N * N * N) :
  padded s1 = true -> padded s2 = true ->
  Strptime.strptime s1 = Some t1 -> Strptime.strptime s2 = Some t2 ->
  str_le s1 s2 = date_le t1 t2.
Proof.
  intros P1 P2.
  rewrite <- (string_of_list_ascii_of_string s1),
    <- (string_of_list_ascii_of_string s2).
  unfold padded in P1, P2.
  destruct (list_ascii_of_string s1)
    as [|y1 [|y2 [|y3 [|y4 [|h1 [|m1 [|m2 [|h2 [|d1 [|d2 [|? ?]]]]]]]]]]];
    try discriminate P1.
  destruct (list_ascii_of_string s2)
    as [|z1 [|z2 [|z3 [|z4 [|k1 [|n1 [|n2 [|k2 [|e1 [|e2 [|? ?]]]]]]]]]]];
    try discriminate P2.
  padded_digits P1. padded_digits P2.
  apply Ascii.eqb_eq in Hdash, Hdash0, Hdash1, Hdash2. subst h1 h2 k1 k2.
  destruct t1 as [[y m] d], t2 as [[y' m'] d']. intros S1 S2.
  eapply strptime_padded in S1 as (-> & -> & ->); try eassumption.
  eapply strptime_padded in S2 as (-> & -> & ->); try eassumption.
  now apply str_le_padded.
Qed.

(** The two dates of the first sample announcement. *)
Lemma padded_dates_in_calendar_order_sample :
  str_le "2024-06-01" "2024-06-30"
  = date_le (2024%N, 6%N, 1%N) (2024%N, 6%N, 30%N).
Proof.
  apply (padded_dates_in_calendar_order "2024-06-01" "2024-06-30");
    reflexivity.
Defined.

(** ** Create, then list *)

(** An announcement just created is listed as active exactly on the
    days from its [start_date], when it has one, to its
    [expiration_date]; the announcements listed before stay listed, in
    front of it. *)
Theorem created_announcement_listed_when_active (current_date message
    expiration_date teacher_username : string) (start_date : optstr)
    (inserted_id : ObjectId) (db : database) (r : Response.t) :
  Forall (fun a => well_formed a = true) (announcements_collection db) ->
  fst (create_announcement message expiration_date teacher_username
         start_date inserted_id db) = Ok r ->
  exists listed,
    get_announcements current_date db = Ok listed
    /\ get_announcements current_date
         (snd (create_announcement message expiration_date teacher_username
                 start_date inserted_id db))
       = Ok (listed
             ++ if match start_date with
                   | Some s => str_ge current_date s
                   | None => true
                   end
                   && str_le current_date expiration_date
                then [Response.mk (str inserted_id) (Some message)
                        (if truthy start_date then start_date else None)
                        (Some expiration_date) (Some teacher_username)]
                else []).
Proof.
  intros Hwf Hr.
  destruct (create_announcement_inv _ _ _ _ _ _ _ Hr) as (Ht & Hd & Hf).
  rewrite (create_announcement_ok _ _ _ _ _ _ Ht Hd Hf). simpl.
  unfold get_announcements. simpl.
  set (stored := mkDocument inserted_id
                   (announcement_doc message expiration_date
                      teacher_username start_date)).
  assert (Hs : Forall (fun a => well_formed a = true) [stored]).
  { constructor; [apply announcement_doc_well_formed | constructor]. }
  eexists. split.
  { now rewrite (get_announcements_loop_spec current_date _ Hwf). }
  rewrite (get_announcements_loop_app current_date _ [stored] Hwf).
  rewrite (get_announcements_loop_spec current_date _ Hs). simpl.
  do 2 f_equal.
  assert (Hstart : get stored "start_date"
                   = if truthy start_date then start_date else None).
  { unfold get, stored. simpl.
    rewrite announcement_doc_start_date. apply to_py_start_date. }
  assert (Hexp : get stored "expiration_date" = Some expiration_date).
  { unfold get, stored. simpl.
    now rewrite announcement_doc_expiration_date. }
  assert (Hview : view stored
                  = Response.mk (str inserted_id) (Some message)
                      (if truthy start_date then start_date else None)
                      (Some expiration_date) (Some teacher_username)).
  { unfold view. rewrite Hstart, Hexp. unfold get, stored. simpl.
    now rewrite announcement_doc_message, announcement_doc_created_by. }
  unfold active. rewrite Hstart, Hexp.
  assert (Hsame : match (if truthy start_date then start_date else None) with
                  | Some s => str_ge current_date s
                  | None => true
                  end
                  = match start_date with
                    | Some s => str_ge current_date s
                    | None => true
                    end).
  { destruct start_date as [s|]; [|reflexivity]. simpl.
    destruct (String.eqb_spec s "") as [->|_]; simpl; [|reflexivity].
    now rewrite str_ge_empty. }
  rewrite Hsame.
  destruct (_ && _); simpl; [now rewrite Hview | reflexivity].
Qed.

(** An announcement for July and August 2024 created on the sample
    database, seen on 2024-06-15: it is not listed yet. *)
Lemma created_announcement_listed_when_active_sample :
  exists listed,
    get_announcements "2024-06-15" Sample.db = Ok listed
    /\ get_announcements "2024-06-15"
         (snd (create_announcement "Holidays" "2024-08-31" "t1"
                 (Some "2024-07-01") Sample.id_c Sample.db))
       = Ok (listed ++ []).
Proof.
  apply (created_announcement_listed_when_active "2024-06-15" "Holidays"
           "2024-08-31" "t1" (Some "2024-07-01") Sample.id_c Sample.db
           (Response.mk "65a1b2c3d4e5f60718293a4c" (Some "Holidays")
              (Some "2024-07-01") (Some "2024-08-31") (Some "t1"))).
  - repeat constructor.
  - reflexivity.
Defined.

(** ** The store invariant *)

(** Unique identifiers and the required fields are kept by every write:
    a store that has both has both after create, update and delete,
    whatever their arguments and outcome. *)
Theorem writes_keep_store_ok (db : database) :
  store_ok (announcements_collection db) ->
  (forall message expiration_date teacher_username start_date inserted_id,
     store_ok
       (announcements_collection
          (snd (create_announcement message expiration_date teacher_username
                  start_date inserted_id db))))
  /\ (forall announcement_id message expiration_date teacher_username
             start_date,
        store_ok
          (announcements_collection
             (snd (update_announcement announcement_id message
                     expiration_date teacher_username start_date db))))
  /\ (forall announcement_id teacher_username,
        store_ok
          (announcements_collection
             (snd (delete_announcement announcement_id teacher_username
                     db)))).
Proof.
  intros Hok. split; [|split]; intros.
  - now apply create_announcement_store_ok.
  - now apply update_announcement_store_ok.
  - now apply delete_announcement_store_ok.
Qed.

(** From the empty store, a create. *)
Lemma writes_keep_store_ok_sample :
  store_ok
    (announcements_collection
       (snd (create_announcement "M" "2099-01-01" "t1" None Sample.id_c
               (mkDatabase [] {[ "t1" ]})))).
Proof.
  destruct (writes_keep_store_ok (mkDatabase [] {[ "t1" ]}) store_ok_empty)
    as (H & _ & _).
  apply H.
Defined.

(** ** The two parsers on unusual texts *)

(** White space between the bytes of an identifier is skipped, so a text
    of 24 characters can stand for fewer than twelve bytes; no stored
    record has such an identifier, and update and delete answer 404. *)
Lemma parse_skips_white_space :
  parse "65a1b2c3d4e5f60718293a  " = Some (mkObjectId "65a1b2c3d4e5f60718293a")
  /\ parse "                        " = Some (mkObjectId "")
  /\ parse "65a1b2c3d4e5f60718293 4a" = None.
Proof. repeat split. Qed.

Lemma white_space_identifier_not_found :
  update_announcement "65a1b2c3d4e5f60718293a  " "M" "2099-01-01" "t1" None
    Sample.db
  = (Err (HTTPException 404 "Announcement not found"), Sample.db)
  /\ delete_announcement "                        " "t1" Sample.db
     = (Err (HTTPException 404 "Announcement not found"), Sample.db).
Proof. split; reflexivity. Qed.

(** The year, and the second digit of a day from 10 to 29, may be
    written with the decimal digits of any script; the month may not. *)
Lemma strptime_reads_other_digits :
  Strptime.strptime "٢٠٢٤-06-15" = Some (2024, 6, 15)%N
  /\ Strptime.strptime "2024-06-1٥" = Some (2024, 6, 15)%N
  /\ Strptime.strptime "2024-0٦-15" = None
  /\ Strptime.strptime "2024-06-١٥" = None.
Proof. repeat split. Qed.

(** A create with such a date is accepted, and the record it stores is a
    valid record. *)
Lemma create_with_other_digits :
  is_invalid_input
    (fst (create_announcement "M" "٢٠٢٤-06-15" "t1" None Sample.id_c
            Sample.db)) = false
  /\ Forall (fun a => valid_record a = true)
       (announcements_collection
          (snd (create_announcement "M" "٢٠٢٤-06-15" "t1" None Sample.id_c
                  Sample.db))).
Proof. split; [reflexivity | repeat constructor]. Qed.
